(** * DeepCare: the patient drop-off pipeline of [deepcare_code.ipynb]

    A shallow embedding of the notebook's table transformations.  A Spark
    DataFrame is a list of rows, a nullable column is an [option], an
    integer column is a [Z], a double column is a [Q] (the properties
    below involve no rounding), a string column is a [string].  Every table
    of the notebook that the properties below talk about is a definition
    that keeps the notebook's name. *)

From Stdlib Require Import ZArith QArith List String Bool Lia Permutation Arith.
From Stdlib Require Import Sorted RelationClasses.
Import ListNotations.
Open Scope string_scope.
Open Scope Z_scope.

(** ** The Spark primitives the notebook calls *)

Module Spark.

(** [df.fillna({c: v})] on one cell: a null becomes [v]. *)
Definition fillna {A : Type} (v : A) (c : option A) : option A :=
  match c with
  | None => Some v
  | Some _ => c
  end.

(** A boolean column expression is three-valued; [when] takes its branch
    only where the condition is true ([null] falls to the next branch). *)
Definition holds (c : option bool) : bool :=
  match c with
  | Some true => true
  | _ => false
  end.

(** [col(c).isin(v1, ..., vn)] *)
Definition isin (c : option string) (vs : list string) : option bool :=
  match c with
  | None => None
  | Some s => Some (existsb (String.eqb s) vs)
  end.

(** [col(c) > k] on an integer column *)
Definition gt (c : option Z) (k : Z) : option bool :=
  match c with
  | None => None
  | Some x => Some (k <? x)
  end.

(** [col(c) == "s"] on a string column *)
Definition eq_str (c : option string) (s : string) : option bool :=
  match c with
  | None => None
  | Some x => Some (String.eqb x s)
  end.

(** [col(c).cast("int")] on an integral column, int or long (Spark 3,
    non-ANSI mode): the value is narrowed to 32 bits, two's complement.  A
    column is integral when its values fit in 64 bits; a column that holds
    a greater value is read as a decimal or a double, which this cast does
    not model. *)
Definition wrap32 (x : Z) : Z := (x + 2 ^ 31) mod 2 ^ 32 - 2 ^ 31.

Definition cast_int (c : option Z) : option Z := option_map wrap32 c.

(** The equality of a join on a key column: a null key matches nothing. *)
Definition key_match (a b : option Z) : bool :=
  match a, b with
  | Some x, Some y => x =? y
  | _, _ => false
  end.

(** The equality of [groupBy] and [dropDuplicates]: nulls form one group. *)
Definition key_same (a b : option Z) : bool :=
  match a, b with
  | Some x, Some y => x =? y
  | None, None => true
  | _, _ => false
  end.

(** [left.join(right, on=key, how="inner")] *)
Definition inner_join {A B C : Type} (ka : A -> option Z) (kb : B -> option Z)
    (mk : A -> B -> C) (left : list A) (right : list B) : list C :=
  flat_map
    (fun a => map (mk a) (filter (fun b => key_match (ka a) (kb b)) right))
    left.

(** [left.join(right, on=key, how="left")]: a left row without a match is
    kept once, with nulls for the right columns. *)
Definition left_join {A B C : Type} (ka : A -> option Z) (kb : B -> option Z)
    (mk : A -> option B -> C) (left : list A) (right : list B) : list C :=
  flat_map
    (fun a =>
       match filter (fun b => key_match (ka a) (kb b)) right with
       | [] => [mk a None]
       | ms => map (fun b => mk a (Some b)) ms
       end)
    left.

(** [df.dropDuplicates([key])]: one row per key.  Spark keeps an arbitrary
    row of each group; the model keeps the first one. *)
Fixpoint dropDuplicates {A : Type} (key : A -> option Z) (rows : list A)
    : list A :=
  match rows with
  | [] => []
  | r :: rest =>
      r :: filter (fun r' => negb (key_same (key r) (key r')))
             (dropDuplicates key rest)
  end.

(** The groups of [groupBy(key)]: the distinct keys of the column. *)
Definition distinct_keys (ks : list (option Z)) : list (option Z) :=
  dropDuplicates (fun k => k) ks.

End Spark.

(** ** The three input tables *)

(** A row of [patient_demographics.csv] as [spark.read.csv] infers it. *)
Record demo_row := mk_demo {
  d_patient_id : option Z;
  d_age : option Z;
  d_gender : option string;
  d_zipcode : option Z;
  d_insurance : option string;
  d_marital_status : option string;
  d_education_level : option string;
  d_employment_status : option string;
  d_chronic_conditions : option Z;
  d_has_mobile_app : option string;
  d_language_preference : option string;
  d_avg_monthly_income : option Q
}.

(** A row of [patient_visits.csv]. *)
Record visit_row := mk_visit {
  v_patient_id : option Z;
  v_num_visits : option Z;
  v_total_spent : option Q;
  v_time_in_waiting : option Q;
  v_visit_type : option string;
  v_appointment_day : option string;
  v_department : option string;
  v_satisfaction_score : option Z;
  v_doctor_assigned : option string;
  v_visit_duration : option Q;
  v_prescription_given : option string;
  v_followup_recommended : option string;
  v_drop_off : option Z
}.

(** A [log] element of [hospital_logs.xml] with the schema the notebook
    prints: [patient_id] is a long, [timestamp] a point in time (minutes
    since the epoch). *)
Record log_event := mk_log {
  l_department : option string;
  l_event : option string;
  l_log_type : option string;
  l_patient_id : option Z;
  l_staff_on_duty : option string;
  l_timestamp : option Z
}.

(** ** [preprocess_demographics] *)

Definition categorical_demo_fill : string := "Unknown".

(** [df_demo.select(mean("avg_monthly_income")).first()[0]]: the mean of the
    non-null values, null over an empty or all-null column. *)
Definition non_null {A : Type} (col : list (option A)) : list A :=
  flat_map (fun c => match c with Some x => [x] | None => [] end) col.

Definition Qsum (xs : list Q) : Q := fold_right Qplus (0%Q) xs.

(** The mean is taken here in exact arithmetic.  Spark takes it in doubles
    and [fillna] casts it to the type of the column, so the value that the
    code fills in can differ from this one by rounding; the properties below
    do not depend on which value it is. *)
Definition income_mean (df_demo : list demo_row) : option Q :=
  match non_null (map d_avg_monthly_income df_demo) with
  | [] => None
  | x :: xs => Some (Qsum (x :: xs) / inject_Z (Z.of_nat (List.length (x :: xs))))%Q
  end.

(** The [when(...).when(...).otherwise(...)] chain on [gender]. *)
Definition standardize_gender (g : option string) : option string :=
  if Spark.holds (Spark.isin g ["M"; "Male"]) then Some "Male"
  else if Spark.holds (Spark.isin g ["F"; "Female"]) then Some "Female"
  else Some "Other".

(** [when(col("chronic_conditions") > 5, 5).otherwise(col("chronic_conditions"))] *)
Definition cap_chronic_conditions (c : option Z) : option Z :=
  if Spark.holds (Spark.gt c 5) then Some 5 else c.

Definition clean_demo_row (mean_income : Q) (r : demo_row) : demo_row :=
  {| d_patient_id := d_patient_id r;
     d_age := d_age r;
     d_gender :=
       standardize_gender (Spark.fillna categorical_demo_fill (d_gender r));
     d_zipcode := d_zipcode r;
     d_insurance := Spark.fillna categorical_demo_fill (d_insurance r);
     d_marital_status := Spark.fillna categorical_demo_fill (d_marital_status r);
     d_education_level :=
       Spark.fillna categorical_demo_fill (d_education_level r);
     d_employment_status :=
       Spark.fillna categorical_demo_fill (d_employment_status r);
     d_chronic_conditions := cap_chronic_conditions (d_chronic_conditions r);
     d_has_mobile_app := d_has_mobile_app r;
     d_language_preference :=
       Spark.fillna categorical_demo_fill (d_language_preference r);
     d_avg_monthly_income := Spark.fillna mean_income (d_avg_monthly_income r)
  |}.

(** The cleaner.  [fillna] raises when the mean is null (no income value in
    the file): that is the [None] result. *)
Definition preprocess_demographics (csv : list demo_row)
    : option (list demo_row) :=
  match income_mean csv with
  | None => None
  | Some m => Some (map (clean_demo_row m) csv)
  end.

(** ** [preprocess_visits] *)

(** The [fillna] dictionary of the visits cleaner. *)
Definition fillna_visits (r : visit_row) : visit_row :=
  {| v_patient_id := v_patient_id r;
     v_num_visits := v_num_visits r;
     v_total_spent := Spark.fillna (0%Q) (v_total_spent r);
     v_time_in_waiting := v_time_in_waiting r;
     v_visit_type := Spark.fillna "Unknown" (v_visit_type r);
     v_appointment_day := Spark.fillna "Unknown" (v_appointment_day r);
     v_department := Spark.fillna "Unknown" (v_department r);
     v_satisfaction_score := v_satisfaction_score r;
     v_doctor_assigned := v_doctor_assigned r;
     v_visit_duration := Spark.fillna (0%Q) (v_visit_duration r);
     v_prescription_given := v_prescription_given r;
     v_followup_recommended := v_followup_recommended r;
     v_drop_off := Spark.fillna 0 (v_drop_off r)
  |}.

(** [withColumn("drop_off", col("drop_off").cast("int"))] *)
Definition cast_drop_off (r : visit_row) : visit_row :=
  {| v_patient_id := v_patient_id r;
     v_num_visits := v_num_visits r;
     v_total_spent := v_total_spent r;
     v_time_in_waiting := v_time_in_waiting r;
     v_visit_type := v_visit_type r;
     v_appointment_day := v_appointment_day r;
     v_department := v_department r;
     v_satisfaction_score := v_satisfaction_score r;
     v_doctor_assigned := v_doctor_assigned r;
     v_visit_duration := v_visit_duration r;
     v_prescription_given := v_prescription_given r;
     v_followup_recommended := v_followup_recommended r;
     v_drop_off := Spark.cast_int (v_drop_off r)
  |}.

Definition preprocess_visits (csv : list visit_row) : list visit_row :=
  map cast_drop_off (map fillna_visits csv).

(** ** The integration cell: log features *)

(** The first aggregate of the cell, one row per [patient_id] group. *)
Record log_counts := mk_counts {
  c_patient_id : option Z;
  c_log_count : option Z;
  c_critical_logs : option Z;
  c_unique_events : option Z
}.

(** [latest_logs]: the greatest timestamp of each group. *)
Record latest_log := mk_latest {
  ll_patient_id : option Z;
  ll_latest_log_time : option Z
}.

(** [latest_department]: the department of a latest event. *)
Record latest_dept := mk_dept {
  ld_patient_id : option Z;
  ld_most_recent_department : option string
}.

(** [df_log_features] once the department is joined in. *)
Record log_features := mk_features {
  lf_patient_id : option Z;
  lf_log_count : option Z;
  lf_critical_logs : option Z;
  lf_unique_events : option Z;
  lf_most_recent_department : option string
}.

(** The cast that opens the cell: [patient_id] to int; [to_timestamp] leaves
    a column that is already a timestamp as it is. *)
Definition cast_log (e : log_event) : log_event :=
  {| l_department := l_department e;
     l_event := l_event e;
     l_log_type := l_log_type e;
     l_patient_id := Spark.cast_int (l_patient_id e);
     l_staff_on_duty := l_staff_on_duty e;
     l_timestamp := l_timestamp e |}.

(** The rows of one [groupBy("patient_id")] group. *)
Definition group_rows (k : option Z) (df_logs : list log_event)
    : list log_event :=
  filter (fun e => Spark.key_same k (l_patient_id e)) df_logs.

Definition group_keys (df_logs : list log_event) : list (option Z) :=
  Spark.distinct_keys (map l_patient_id df_logs).

(** [count("*")] *)
Definition count_star {A : Type} (rows : list A) : Z :=
  Z.of_nat (List.length rows).

(** [count(when(col("log_type") == "critical", True))]: [count] skips the
    nulls that [when] leaves where the condition is not true. *)
Definition count_critical (rows : list log_event) : Z :=
  Z.of_nat
    (List.length
       (filter (fun e => Spark.holds (Spark.eq_str (l_log_type e) "critical"))
          rows)).

(** [countDistinct("event")]: the distinct non-null values. *)
Definition countDistinct_event (rows : list log_event) : Z :=
  Z.of_nat (List.length (nodup string_dec (non_null (map l_event rows)))).

Definition log_counts_agg (df_logs : list log_event) : list log_counts :=
  map
    (fun k =>
       let rows := group_rows k df_logs in
       {| c_patient_id := k;
          c_log_count := Some (count_star rows);
          c_critical_logs := Some (count_critical rows);
          c_unique_events := Some (countDistinct_event rows) |})
    (group_keys df_logs).

(** [spark_max("timestamp")]: the greatest non-null value, null if none. *)
Definition spark_max (col : list (option Z)) : option Z :=
  match non_null col with
  | [] => None
  | x :: xs => Some (fold_right Z.max x xs)
  end.

Definition latest_logs (df_logs : list log_event) : list latest_log :=
  map
    (fun k =>
       {| ll_patient_id := k;
          ll_latest_log_time :=
            spark_max (map l_timestamp (group_rows k df_logs)) |})
    (group_keys df_logs).

(** [col("timestamp") == col("latest_log_time")] *)
Definition eq_time (a b : option Z) : option bool :=
  match a, b with
  | Some x, Some y => Some (x =? y)
  | _, _ => None
  end.

Definition latest_department (df_logs : list log_event) : list latest_dept :=
  Spark.dropDuplicates ld_patient_id
    (map
       (fun el : log_event * latest_log =>
          {| ld_patient_id := l_patient_id (fst el);
             ld_most_recent_department := l_department (fst el) |})
       (filter
          (fun el : log_event * latest_log =>
             Spark.holds
               (eq_time (l_timestamp (fst el)) (ll_latest_log_time (snd el))))
          (Spark.inner_join l_patient_id ll_patient_id pair df_logs
             (latest_logs df_logs)))).

(** The [fillna] dictionary used on the log-derived columns (twice). *)
Definition fillna_log_features (f : log_features) : log_features :=
  {| lf_patient_id := lf_patient_id f;
     lf_log_count := Spark.fillna 0 (lf_log_count f);
     lf_critical_logs := Spark.fillna 0 (lf_critical_logs f);
     lf_unique_events := Spark.fillna 0 (lf_unique_events f);
     lf_most_recent_department :=
       Spark.fillna "Unknown" (lf_most_recent_department f) |}.

Definition df_log_features (df_logs : list log_event) : list log_features :=
  map fillna_log_features
    (Spark.left_join c_patient_id ld_patient_id
       (fun c d =>
          {| lf_patient_id := c_patient_id c;
             lf_log_count := c_log_count c;
             lf_critical_logs := c_critical_logs c;
             lf_unique_events := c_unique_events c;
             lf_most_recent_department :=
               match d with
               | Some d' => ld_most_recent_department d'
               | None => None
               end |})
       (log_counts_agg df_logs) (latest_department df_logs)).

(** ** The integration cell: the two merges *)

(** A row of [df_patient]: the columns of a demographics row and of a visits
    row that share the join key ([patient_id] is the one of the left side). *)
Record patient_row := mk_patient {
  p_demo : demo_row;
  p_visit : visit_row
}.

Definition p_patient_id (r : patient_row) : option Z :=
  d_patient_id (p_demo r).

(** A row of [df_final]. *)
Record final_row := mk_final {
  f_demo : demo_row;
  f_visit : visit_row;
  f_log_count : option Z;
  f_critical_logs : option Z;
  f_unique_events : option Z;
  f_most_recent_department : option string
}.

Definition f_patient_id (r : final_row) : option Z :=
  d_patient_id (f_demo r).

(** [df_demo.join(df_visits, on="patient_id", how="inner")] *)
Definition df_patient (df_demo : list demo_row) (df_visits : list visit_row)
    : list patient_row :=
  Spark.inner_join d_patient_id v_patient_id mk_patient df_demo df_visits.

Definition attach_features (p : patient_row) (f : option log_features)
    : final_row :=
  {| f_demo := p_demo p;
     f_visit := p_visit p;
     f_log_count := match f with Some x => lf_log_count x | None => None end;
     f_critical_logs :=
       match f with Some x => lf_critical_logs x | None => None end;
     f_unique_events :=
       match f with Some x => lf_unique_events x | None => None end;
     f_most_recent_department :=
       match f with Some x => lf_most_recent_department x | None => None end
  |}.

Definition fillna_final (r : final_row) : final_row :=
  {| f_demo := f_demo r;
     f_visit := f_visit r;
     f_log_count := Spark.fillna 0 (f_log_count r);
     f_critical_logs := Spark.fillna 0 (f_critical_logs r);
     f_unique_events := Spark.fillna 0 (f_unique_events r);
     f_most_recent_department :=
       Spark.fillna "Unknown" (f_most_recent_department r) |}.

(** [df_patient.join(df_log_features, on="patient_id", how="left").fillna(...)] *)
Definition df_final (df_demo : list demo_row) (df_visits : list visit_row)
    (df_logs : list log_event) : list final_row :=
  map fillna_final
    (Spark.left_join p_patient_id lf_patient_id attach_features
       (df_patient df_demo df_visits) (df_log_features df_logs)).

(** The rows of a table of [df_final] that belong to patient [p]. *)
Definition rows_of (p : Z) (t : list final_row) : list final_row :=
  filter (fun r => Spark.key_match (Some p) (f_patient_id r)) t.

(** ** The notebook as a sequence of cells over its global variables *)

(** The three files behind the three path constants. *)
Record datasets := mk_datasets {
  patient_demographics_csv : list demo_row;
  patient_visits_csv : list visit_row;
  hospital_logs_xml : list log_event
}.

(** The notebook's globals that the cells up to the integration assign. *)
Record globals := mk_globals {
  g_df_demo : list demo_row;
  g_df_visits : list visit_row;
  g_df_logs : list log_event;
  g_df_final : list final_row
}.

Definition empty_globals : globals :=
  {| g_df_demo := []; g_df_visits := []; g_df_logs := []; g_df_final := [] |}.

(** [df_demo = preprocess_demographics(spark, patient_demographics_path)] *)
Definition cell_demographics (fs : datasets) (g : globals) : option globals :=
  match preprocess_demographics (patient_demographics_csv fs) with
  | None => None
  | Some d =>
      Some {| g_df_demo := d; g_df_visits := g_df_visits g;
              g_df_logs := g_df_logs g; g_df_final := g_df_final g |}
  end.

(** [df_visits = preprocess_visits(spark, patient_visits_path)] *)
Definition cell_visits (fs : datasets) (g : globals) : option globals :=
  Some {| g_df_demo := g_df_demo g;
          g_df_visits := preprocess_visits (patient_visits_csv fs);
          g_df_logs := g_df_logs g; g_df_final := g_df_final g |}.

(** [df_logs = preprocess_logs(spark, hospital_path)].  A file without a
    [log] element is read as a table without columns, on which
    [col("patient_id")] raises. *)
Definition cell_logs (fs : datasets) (g : globals) : option globals :=
  match hospital_logs_xml fs with
  | [] => None
  | _ :: _ =>
      Some {| g_df_demo := g_df_demo g; g_df_visits := g_df_visits g;
              g_df_logs := map cast_log (hospital_logs_xml fs);
              g_df_final := g_df_final g |}
  end.

(** The integration cell.  It starts by assigning [df_demo], [df_visits] and
    [df_logs] again, each from [spark.read] of its file; only the logs are
    cast again before the merge, and that cast raises on a file without a
    [log] element as it does in the logs cell. *)
Definition cell_integration (fs : datasets) (g : globals) : option globals :=
  let df_demo := patient_demographics_csv fs in
  let df_visits := patient_visits_csv fs in
  match hospital_logs_xml fs with
  | [] => None
  | _ :: _ =>
      let df_logs := map cast_log (hospital_logs_xml fs) in
      Some {| g_df_demo := df_demo; g_df_visits := df_visits;
              g_df_logs := df_logs;
              g_df_final := df_final df_demo df_visits df_logs |}
  end.

Definition bind {A B : Type} (m : option A) (k : A -> option B) : option B :=
  match m with
  | Some a => k a
  | None => None
  end.

Notation "m >>= k" := (bind m k) (at level 50, left associativity).

Definition run_notebook (fs : datasets) : option globals :=
  cell_demographics fs empty_globals
    >>= cell_visits fs >>= cell_logs fs >>= cell_integration fs.

(** ** Sorting, shared by [StringIndexer] and [orderBy] *)

Fixpoint insert_by {A : Type} (leb : A -> A -> bool) (a : A) (l : list A)
    : list A :=
  match l with
  | [] => [a]
  | b :: t => if leb a b then a :: b :: t else b :: insert_by leb a t
  end.

Definition sort_by {A : Type} (leb : A -> A -> bool) (l : list A) : list A :=
  fold_right (insert_by leb) [] l.

(** ** The feature encoder: [StringIndexer] and [OneHotEncoder] *)

(** The categorical columns of the encoding loop, each with its reader. *)
Definition categorical_cols : list (string * (final_row -> option string)) :=
  [ ("gender", fun r => d_gender (f_demo r));
    ("insurance", fun r => d_insurance (f_demo r));
    ("marital_status", fun r => d_marital_status (f_demo r));
    ("education_level", fun r => d_education_level (f_demo r));
    ("employment_status", fun r => d_employment_status (f_demo r));
    ("language_preference", fun r => d_language_preference (f_demo r));
    ("visit_type", fun r => v_visit_type (f_visit r));
    ("appointment_day", fun r => v_appointment_day (f_visit r));
    ("department", fun r => v_department (f_visit r));
    ("most_recent_department", f_most_recent_department);
    ("has_mobile_app", fun r => d_has_mobile_app (f_demo r)) ].

Definition column (c : string * (final_row -> option string))
    (df : list final_row) : list (option string) :=
  map (snd c) df.

(** The default [stringOrderType], [frequencyDesc]: the most frequent label
    first, labels of equal frequency in alphabetical order. *)
Definition frequencyDesc (vals : list string) (a b : string) : bool :=
  let ca := count_occ string_dec vals a in
  let cb := count_occ string_dec vals b in
  (cb <? ca)%nat || ((ca =? cb)%nat && String.leb a b).

(** [StringIndexer(...).fit(df)]: the labels, read from the non-null values
    of the column. *)
Definition StringIndexer_fit (col : list (option string)) : list string :=
  let vals := non_null col in
  sort_by (frequencyDesc vals) (nodup string_dec vals).

Fixpoint index_of (s : string) (labels : list string) : option nat :=
  match labels with
  | [] => None
  | l :: t =>
      if String.eqb s l then Some O else option_map S (index_of s t)
  end.

(** The fitted indexer with [handleInvalid="keep"]: a null or a value that is
    not a label goes to the additional bucket, at index [numLabels]. *)
Definition StringIndexer_transform (labels : list string) (v : option string)
    : nat :=
  match v with
  | None => List.length labels
  | Some s =>
      match index_of s labels with
      | Some i => i
      | None => List.length labels
      end
  end.

(** A sparse vector as Spark prints it: [(size,[indices],[values])]. *)
Record SparseVector := mk_sparse {
  sv_size : nat;
  sv_indices : list nat;
  sv_values : list Q
}.

(** [OneHotEncoder(...).fit(df)]: the category size of the index column, read
    from the attribute that the indexer attached to it; with [keep] that
    attribute lists the labels and the additional bucket.  With
    [dropLast=True] the fit raises unless there are at least two categories,
    that is unless the column has a label. *)
Definition OneHotEncoder_fit (labels : list string) : option nat :=
  match labels with
  | [] => None
  | _ :: _ => Some (S (List.length labels))
  end.

(** The fitted encoder with its defaults, [dropLast=True] and
    [handleInvalid="error"]: the vector has one slot less than the category
    size, the last category is the vector without entries, an index outside
    the categories raises. *)
Definition OneHotEncoder_transform (categorySize : nat) (label : nat)
    : option SparseVector :=
  if (label <? categorySize)%nat then
    let size := (categorySize - 1)%nat in
    if (label <? size)%nat then
      Some {| sv_size := size; sv_indices := [label]; sv_values := [1%Q] |}
    else
      Some {| sv_size := size; sv_indices := []; sv_values := [] |}
  else None.

(** One turn of the encoding loop on column [c]: the [_index] and the
    [_encoded] value of every row, or the error of the encoder's fit. *)
Definition encode_column (c : string * (final_row -> option string))
    (df : list final_row) : option (list (nat * option SparseVector)) :=
  let labels := StringIndexer_fit (column c df) in
  match OneHotEncoder_fit labels with
  | None => None
  | Some categorySize =>
      Some
        (map
           (fun v =>
              let i := StringIndexer_transform labels v in
              (i, OneHotEncoder_transform categorySize i))
           (column c df))
  end.

(** The entry of a sparse vector at a position. *)
Fixpoint sv_get (indices : list nat) (values : list Q) (i : nat) : Q :=
  match indices, values with
  | j :: indices', x :: values' =>
      if (j =? i)%nat then x else sv_get indices' values' i
  | _, _ => 0%Q
  end.

(** [v.toArray()] *)
Definition toArray (v : SparseVector) : list Q :=
  map (sv_get (sv_indices v) (sv_values v)) (seq 0 (sv_size v)).

Definition nonzero (x : Q) : bool := negb (Qeq_bool x 0).

(** [v.numNonzeros()] *)
Definition numNonzeros (v : SparseVector) : nat :=
  List.length (filter nonzero (toArray v)).

(** The decoder of the round-trip property.  The notebook has no decoder;
    this is the one the property names: the position of the nonzero entry of
    the vector, none for a vector of zeros. *)
Fixpoint first_nonzero (xs : list Q) (i : nat) : option nat :=
  match xs with
  | [] => None
  | x :: t => if nonzero x then Some i else first_nonzero t (S i)
  end.

Definition decode_one_hot (v : SparseVector) : option nat :=
  first_nonzero (toArray v) 0.

(** ** Sampling: the balancer and the train/test split *)

(** [BernoulliCellSampler]: a row is kept when its draw falls in
    [[lb, ub)].  [draw i] is the value [nextDouble()] gives for row [i] under
    the seed. *)
Definition in_cell (lb ub x : Q) : bool :=
  Qle_bool lb x && negb (Qle_bool ub x).

Fixpoint sample_cell {row : Type} (lb ub : Q) (draw : nat -> Q) (i : nat)
    (rows : list row) : list row :=
  match rows with
  | [] => []
  | r :: t =>
      if in_cell lb ub (draw i) then r :: sample_cell lb ub draw (S i) t
      else sample_cell lb ub draw (S i) t
  end.

(** [df.sample(withReplacement=False, fraction=f, seed=s)] for a fraction in
    [[0, 1]], as the notebook's [24000/559743] is; Spark rejects a fraction
    outside that interval, which this definition does not model. *)
Definition sample {row : Type} (fraction : Q) (draw : nat -> Q)
    (rows : list row) : list row :=
  sample_cell 0 fraction draw 0 rows.

(** [df.orderBy(rand())]: the rows sorted by a random key per row. *)
Definition orderBy_rand {row : Type} (key : nat -> Q) (rows : list row)
    : list row :=
  map snd
    (sort_by (fun a b : Q * row => Qle_bool (fst a) (fst b))
       (combine (map key (seq 0 (List.length rows))) rows)).

(** [col("drop_off") == k] *)
Definition eq_int (c : option Z) (k : Z) : option bool :=
  match c with
  | None => None
  | Some x => Some (x =? k)
  end.

Definition df_major {row : Type} (drop_off : row -> option Z)
    (df_clustered : list row) : list row :=
  filter (fun r => Spark.holds (eq_int (drop_off r) 0)) df_clustered.

Definition df_minor {row : Type} (drop_off : row -> option Z)
    (df_clustered : list row) : list row :=
  filter (fun r => Spark.holds (eq_int (drop_off r) 1)) df_clustered.

Definition majority_fraction : Q := 24000 # 559743.

Definition df_major_sampled {row : Type} (drop_off : row -> option Z)
    (draw : nat -> Q) (df_clustered : list row) : list row :=
  sample majority_fraction draw (df_major drop_off df_clustered).

(** [df_major_sampled.union(df_minor).orderBy(rand())] *)
Definition df_balanced {row : Type} (drop_off : row -> option Z)
    (draw key : nat -> Q) (df_clustered : list row) : list row :=
  orderBy_rand key
    (df_major_sampled drop_off draw df_clustered
       ++ df_minor drop_off df_clustered).

(** The cumulative normalised weights of [randomSplit]:
    [weights.map(_ / sum).scanLeft(0.0)(_ + _)], in exact arithmetic.  For
    the notebook's weights the bounds are 0, 0.7 and 1 in doubles as well;
    for other weights the bounds that Spark computes in doubles can differ
    from the exact ones. *)
Fixpoint scanLeft (acc : Q) (ws : list Q) : list Q :=
  acc :: match ws with
         | [] => []
         | w :: t => scanLeft (acc + w)%Q t
         end.

Definition normalizedCumWeights (weights : list Q) : list Q :=
  scanLeft 0 (map (fun w => w / Qsum weights)%Q weights).

(** [sliding(2)] over the bounds. *)
Fixpoint sliding2 (bs : list Q) : list (Q * Q) :=
  match bs with
  | lb :: (ub :: _) as t => (lb, ub) :: sliding2 t
  | _ => []
  end.

(** [df.randomSplit(weights, seed)]: every split samples the same rows with
    the same draws, each in its own cell. *)
Definition randomSplit {row : Type} (weights : list Q) (draw : nat -> Q)
    (rows : list row) : list (list row) :=
  map (fun b => sample_cell (fst b) (snd b) draw 0 rows)
    (sliding2 (normalizedCumWeights weights)).

Definition split_weights : list Q := [7 # 10; 3 # 10].

(** ** Inputs used by the examples *)

(** A raw [drop_off] that is a binary label or missing. *)
Definition binary_or_null (c : option Z) : Prop :=
  c = None \/ c = Some 0 \/ c = Some 1.

Definition visit_with_drop_off (d : option Z) : visit_row :=
  {| v_patient_id := Some 1; v_num_visits := Some 3;
     v_total_spent := Some (45934 # 100)%Q; v_time_in_waiting := Some (235 # 10)%Q;
     v_visit_type := Some "Follow-up"; v_appointment_day := Some "Tuesday";
     v_department := Some "Dermatology"; v_satisfaction_score := Some 1;
     v_doctor_assigned := Some "D147"; v_visit_duration := Some (161 # 10)%Q;
     v_prescription_given := Some "Yes"; v_followup_recommended := Some "No";
     v_drop_off := d |}.

(** What the properties say of one raw row and its cleaned row. *)

(** A cell whose missing value is imputed with [d] and whose value is kept. *)
Definition imputed_with {A : Type} (d : A) (raw clean : option A) : Prop :=
  (raw = None -> clean = Some d) /\
  (forall x, raw = Some x -> clean = Some x).

(** [chronic_conditions] is capped at 5 from above only. *)
Definition chronic_capped (raw clean : demo_row) : Prop :=
  (forall v, d_chronic_conditions clean = Some v -> v <= 5) /\
  (forall v, d_chronic_conditions raw = Some v -> 5 < v ->
             d_chronic_conditions clean = Some 5) /\
  (forall v, d_chronic_conditions raw = Some v -> v <= 5 ->
             d_chronic_conditions clean = Some v) /\
  (d_chronic_conditions raw = None -> d_chronic_conditions clean = None).

(** [drop_off] is a zero-imputed binary label. *)
Definition drop_off_binary (raw clean : visit_row) : Prop :=
  imputed_with 0 (v_drop_off raw) (v_drop_off clean) /\
  (v_drop_off clean = Some 0 \/ v_drop_off clean = Some 1).

(** The columns the visits cleaner imputes, and the ones it leaves. *)
Definition visits_imputed (raw clean : visit_row) : Prop :=
  imputed_with (0%Q) (v_total_spent raw) (v_total_spent clean) /\
  imputed_with (0%Q) (v_visit_duration raw) (v_visit_duration clean) /\
  (v_drop_off raw = None -> v_drop_off clean = Some 0) /\
  imputed_with "Unknown" (v_visit_type raw) (v_visit_type clean) /\
  imputed_with "Unknown" (v_department raw) (v_department clean) /\
  imputed_with "Unknown" (v_appointment_day raw) (v_appointment_day clean) /\
  v_patient_id clean = v_patient_id raw /\
  v_num_visits clean = v_num_visits raw /\
  v_time_in_waiting clean = v_time_in_waiting raw /\
  v_satisfaction_score clean = v_satisfaction_score raw /\
  v_doctor_assigned clean = v_doctor_assigned raw /\
  v_prescription_given clean = v_prescription_given raw /\
  v_followup_recommended clean = v_followup_recommended raw.

(** The scenario of the end-to-end property: patient 1. *)
Definition scenario_demo : demo_row :=
  {| d_patient_id := Some 1; d_age := Some 51; d_gender := Some "M";
     d_zipcode := Some 49372; d_insurance := Some "Medicare";
     d_marital_status := Some "Single"; d_education_level := Some "Bachelor";
     d_employment_status := Some "Student"; d_chronic_conditions := Some 7;
     d_has_mobile_app := Some "Yes"; d_language_preference := Some "Hindi";
     d_avg_monthly_income := Some (202687 # 10)%Q |}.

Definition scenario_visit : visit_row :=
  {| v_patient_id := Some 1; v_num_visits := Some 1;
     v_total_spent := Some (64073 # 100)%Q;
     v_time_in_waiting := Some (239 # 10)%Q;
     v_visit_type := Some "New"; v_appointment_day := Some "Saturday";
     v_department := Some "Cardiology"; v_satisfaction_score := Some 10;
     v_doctor_assigned := Some "D064"; v_visit_duration := Some (17 # 1)%Q;
     v_prescription_given := Some "Yes"; v_followup_recommended := Some "No";
     v_drop_off := None |}.

Definition scenario_logs : list log_event :=
  [ {| l_department := Some "Cardiology"; l_event := Some "Checked-In";
       l_log_type := Some "critical"; l_patient_id := Some 1;
       l_staff_on_duty := Some "S088"; l_timestamp := Some 28000000 |};
    {| l_department := Some "Neurology"; l_event := Some "Procedure";
       l_log_type := Some "info"; l_patient_id := Some 1;
       l_staff_on_duty := Some "S030"; l_timestamp := Some 28000500 |} ].

Definition scenario : datasets :=
  {| patient_demographics_csv := [scenario_demo];
     patient_visits_csv := [scenario_visit];
     hospital_logs_xml := scenario_logs |}.

(** A visits row in which only the key is present. *)
Definition visit_only_key : visit_row :=
  {| v_patient_id := Some 2; v_num_visits := None; v_total_spent := None;
     v_time_in_waiting := None; v_visit_type := None;
     v_appointment_day := None; v_department := None;
     v_satisfaction_score := None; v_doctor_assigned := None;
     v_visit_duration := None; v_prescription_given := None;
     v_followup_recommended := None; v_drop_off := None |}.

(** [patient_id] is unique within a table: at most one row per patient. *)
Definition unique_patient_id {A : Type} (key : A -> option Z) (t : list A)
    : Prop :=
  forall q,
    (List.length (filter (fun r => Spark.key_match (Some q) (key r)) t)
     <= 1)%nat.

(** Patient [p] is present in a table. *)
Definition present {A : Type} (key : A -> option Z) (p : Z) (t : list A)
    : Prop :=
  exists r, In r t /\ key r = Some p.

(** Events of another patient. *)
Definition unrelated_logs : list log_event :=
  [ {| l_department := Some "Ortho"; l_event := Some "Checked-In";
       l_log_type := Some "critical"; l_patient_id := Some 9;
       l_staff_on_duty := Some "S088"; l_timestamp := Some 28100000 |} ].

(** What the encoder does with one value of a column that has [n] labels:
    a vector of [n] slots; a value that is a label has its index below [n]
    and a single nonzero entry, the 1 at that index; a null has the
    additional index [n] and the vector of zeros. *)
Definition one_hot_encoded (n : nat) (value : option string)
    (out : nat * option SparseVector) : Prop :=
  exists v,
    snd out = Some v /\
    sv_size v = n /\
    (value <> None ->
     (fst out < n)%nat /\ numNonzeros v = 1%nat /\
     nth (fst out) (toArray v) (0%Q) = 1%Q) /\
    (value = None -> fst out = n /\ numNonzeros v = 0%nat).

(** The number of distinct non-null values of a column. *)
Definition cardinality (col : list (option string)) : nat :=
  List.length (nodup string_dec (non_null col)).

(** An integrated row of patient 1 with a given [has_mobile_app]. *)
Definition final_with_app (app : option string) : final_row :=
  {| f_demo :=
       {| d_patient_id := Some 1; d_age := Some 51; d_gender := Some "M";
          d_zipcode := Some 49372; d_insurance := Some "Medicare";
          d_marital_status := Some "Single";
          d_education_level := Some "Bachelor";
          d_employment_status := Some "Student";
          d_chronic_conditions := Some 7;
          d_has_mobile_app := app; d_language_preference := Some "Hindi";
          d_avg_monthly_income := Some (202687 # 10)%Q |};
     f_visit := scenario_visit;
     f_log_count := Some 2; f_critical_logs := Some 1;
     f_unique_events := Some 2;
     f_most_recent_department := Some "Neurology" |}.

Definition three_apps : list final_row :=
  [final_with_app (Some "Yes"); final_with_app (Some "No");
   final_with_app None].

(** The last column of the encoding loop. *)
Definition has_mobile_app_col : string * (final_row -> option string) :=
  ("has_mobile_app", fun r => d_has_mobile_app (f_demo r)).

(** A clustered row cut down to an identifier and its label, and a table of
    such rows, for the balancer and the split. *)
Definition labelled_rows : list (nat * option Z) :=
  [(1%nat, Some 0); (2%nat, Some 1); (3%nat, Some 0); (4%nat, Some 1);
   (5%nat, None)].

Definition labelled_eq_dec (x y : nat * option Z) : {x = y} + {x <> y}.
Proof.
  decide equality.
  - decide equality. apply Z.eq_dec.
  - apply Nat.eq_dec.
Defined.

(** Draws in [[0, 1)], as [nextDouble()] gives them. *)
Definition example_draw (i : nat) : Q :=
  if Nat.even i then (1 # 100)%Q else (9 # 10)%Q.

(** What the demographics cleaner does to [gender]. *)
Definition gender_standardized (raw clean : demo_row) : Prop :=
  (d_gender raw = Some "M" \/ d_gender raw = Some "Male" ->
   d_gender clean = Some "Male") /\
  (d_gender raw = Some "F" \/ d_gender raw = Some "Female" ->
   d_gender clean = Some "Female") /\
  (d_gender raw <> Some "M" -> d_gender raw <> Some "Male" ->
   d_gender raw <> Some "F" -> d_gender raw <> Some "Female" ->
   d_gender clean = Some "Other") /\
  (d_gender clean = Some "Male" \/ d_gender clean = Some "Female" \/
   d_gender clean = Some "Other").

(** The categorical columns the demographics cleaner imputes, and the
    columns it passes through. *)
Definition demo_categoricals_imputed (raw clean : demo_row) : Prop :=
  imputed_with "Unknown" (d_insurance raw) (d_insurance clean) /\
  imputed_with "Unknown" (d_marital_status raw) (d_marital_status clean) /\
  imputed_with "Unknown" (d_education_level raw) (d_education_level clean) /\
  imputed_with "Unknown" (d_employment_status raw)
    (d_employment_status clean) /\
  imputed_with "Unknown" (d_language_preference raw)
    (d_language_preference clean) /\
  d_has_mobile_app clean = d_has_mobile_app raw /\
  d_patient_id clean = d_patient_id raw /\
  d_age clean = d_age raw /\
  d_zipcode clean = d_zipcode raw.

(** The incomes that are present in a demographics table. *)
Definition incomes (df_demo : list demo_row) : list Q :=
  non_null (map d_avg_monthly_income df_demo).

(** A demographics row without gender, income and mobile-app flag. *)
Definition demo_missing : demo_row :=
  {| d_patient_id := Some 2; d_age := Some 14; d_gender := None;
     d_zipcode := Some 84681; d_insurance := None;
     d_marital_status := Some "Single"; d_education_level := None;
     d_employment_status := Some "Unemployed"; d_chronic_conditions := None;
     d_has_mobile_app := None; d_language_preference := None;
     d_avg_monthly_income := None |}.

(** The range of a Spark [int]. *)
Definition int_range (x : Z) : Prop := - 2 ^ 31 <= x < 2 ^ 31.

(** The range of a Spark [long]. *)
Definition long_range (x : Z) : Prop := - 2 ^ 63 <= x < 2 ^ 63.

(** What the visits cleaner leaves in [drop_off]. *)
Definition drop_off_cast (raw clean : visit_row) : Prop :=
  exists d,
    v_drop_off clean = Some d /\
    int_range d /\
    (v_drop_off raw = None -> d = 0) /\
    (forall x, v_drop_off raw = Some x -> int_range x -> d = x).

(** The cast of an integral [drop_off] keeps the value modulo 2^32. *)
Definition drop_off_wraps (raw clean : visit_row) : Prop :=
  forall x d,
    v_drop_off raw = Some x -> v_drop_off clean = Some d ->
    (d - x) mod 2 ^ 32 = 0.

(** A visits table whose [drop_off] column is integral (int or long). *)
Definition integral_drop_off (csv : list visit_row) : Prop :=
  Forall (fun r => forall x, v_drop_off r = Some x -> long_range x) csv.



(** The events of patient [p] in the logs. *)
Definition events_of (p : Z) (df_logs : list log_event) : list log_event :=
  filter (fun e => Spark.key_match (Some p) (l_patient_id e)) df_logs.

(** The first right row that matches a key, if any. *)
Definition matching {B : Type} (kb : B -> option Z) (k : option Z)
    (right : list B) : option B :=
  hd_error (filter (fun b => Spark.key_match k (kb b)) right).

(** The row of [df_log_features] for one group of the logs. *)
Definition features_of_group (df_logs : list log_event) (k : option Z)
    : log_features :=
  fillna_log_features
    {| lf_patient_id := k;
       lf_log_count := Some (count_star (group_rows k df_logs));
       lf_critical_logs := Some (count_critical (group_rows k df_logs));
       lf_unique_events :=
         Some (countDistinct_event (group_rows k df_logs));
       lf_most_recent_department :=
         match matching ld_patient_id k (latest_department df_logs) with
         | Some d => ld_most_recent_department d
         | None => None
         end |}.

(** The log-derived columns of a feature row or of an integrated row are
    present, and the two partial counts are within the event count. *)
Definition counts_bounded (log_count critical_logs unique_events : option Z)
    (most_recent_department : option string) (least : Z) : Prop :=
  exists n c u d,
    log_count = Some n /\ critical_logs = Some c /\
    unique_events = Some u /\ most_recent_department = Some d /\
    least <= n /\ 0 <= c <= n /\ 0 <= u <= n.

(** Logs with an event without patient and events of patients 1 and 9. *)
Definition mixed_logs : list log_event :=
  {| l_department := Some "ENT"; l_event := None;
     l_log_type := Some "critical"; l_patient_id := None;
     l_staff_on_duty := None; l_timestamp := None |}
  :: scenario_logs ++ unrelated_logs.

(** Two demographics rows and three visits rows: patient 1 has two visits,
    patient 2 one visit, and one visit has no patient. *)
Definition two_demographics : list demo_row := [scenario_demo; demo_missing].

Definition three_visits : list visit_row :=
  [scenario_visit; visit_only_key; visit_with_drop_off (Some 1);
   {| v_patient_id := None; v_num_visits := Some 2;
      v_total_spent := None; v_time_in_waiting := None;
      v_visit_type := Some "New"; v_appointment_day := None;
      v_department := Some "ENT"; v_satisfaction_score := None;
      v_doctor_assigned := None; v_visit_duration := None;
      v_prescription_given := None; v_followup_recommended := None;
      v_drop_off := Some 0 |}].

(** [e] is an event of patient [p] with the greatest timestamp [t] among the
    patient's events. *)
Definition latest_event (p : Z) (df_logs : list log_event) (e : log_event)
    (t : Z) : Prop :=
  In e (events_of p df_logs) /\
  l_timestamp e = Some t /\
  forall e' t',
    In e' (events_of p df_logs) -> l_timestamp e' = Some t' -> t' <= t.

(** The rows from which [latest_department] drops the duplicates. *)
Definition latest_candidates (df_logs : list log_event) : list latest_dept :=
  map
    (fun el : log_event * latest_log =>
       {| ld_patient_id := l_patient_id (fst el);
          ld_most_recent_department := l_department (fst el) |})
    (filter
       (fun el : log_event * latest_log =>
          Spark.holds
            (eq_time (l_timestamp (fst el)) (ll_latest_log_time (snd el))))
       (Spark.inner_join l_patient_id ll_patient_id pair df_logs
          (latest_logs df_logs))).

(** How often a value occurs in a column. *)
Definition frequency (col : list (option string)) (s : string) : nat :=
  count_occ string_dec (non_null col) s.

(** A column of values for the indexer. *)
Definition days_column : list (option string) :=
  [Some "Tuesday"; Some "Friday"; None; Some "Tuesday"; Some "Sunday";
   Some "Friday"; Some "Tuesday"].

(** ** The columns that go into the feature vectors *)

(** [s.endswith(suffix)] *)
Definition endswith (s suffix : string) : bool :=
  (String.length suffix <=? String.length s)%nat &&
  String.eqb
    (substring (String.length s - String.length suffix)
       (String.length suffix) s)
    suffix.

Definition numerical_cols : list string :=
  ["age"; "chronic_conditions"; "avg_monthly_income"; "num_visits";
   "total_spent"; "time_in_waiting"; "visit_duration";
   "satisfaction_score"; "log_count"; "critical_logs"; "unique_events"].

Definition preprocessed_cols : list string :=
  ["drop_off"]
    ++ map (fun c => c ++ "_scaled") numerical_cols
    ++ map (fun c => fst c ++ "_encoded") categorical_cols.

(** The list comprehension of both feature selections: the columns whose
    name ends with "_scaled" or "_encoded". *)
Definition select_features (columns : list string) : list string :=
  filter (fun c => endswith c "_scaled" || endswith c "_encoded") columns.

Definition clustering_features : list string :=
  select_features preprocessed_cols.

(** The columns of [df_balanced]: those of [df_preprocessed], the
    [features] vector of the clustering and the [cluster] column renamed to
    [patient_segment]. *)
Definition df_balanced_columns : list string :=
  preprocessed_cols ++ ["features"; "patient_segment"].

Definition ml_features : list string :=
  select_features df_balanced_columns ++ ["patient_segment"].


(** An integrated table in which no row has a [has_mobile_app]. *)
Definition no_apps : list final_row :=
  [final_with_app None; final_with_app None].

(** * Properties *)

(** ** Helper lemmas on lists *)

Lemma Forall2_map_self {A B : Type} (P : A -> B -> Prop) (f : A -> B)
    (l : list A) :
  (forall x, In x l -> P x (f x)) -> Forall2 P l (map f l).
Proof.
  induction l as [|a l IH]; intros H; simpl; constructor.
  - apply H. now left.
  - apply IH. intros x Hx. apply H. now right.
Qed.

(** ** The demographics cleaner *)

Lemma cap_chronic_conditions_spec (c : option Z) :
  (forall v, cap_chronic_conditions c = Some v -> v <= 5) /\
  (forall v, c = Some v -> 5 < v -> cap_chronic_conditions c = Some 5) /\
  (forall v, c = Some v -> v <= 5 -> cap_chronic_conditions c = Some v) /\
  (c = None -> cap_chronic_conditions c = None).
Proof.
  unfold cap_chronic_conditions, Spark.gt, Spark.holds.
  destruct c as [x|]; [destruct (5 <? x) eqn:E|].
  - apply Z.ltb_lt in E.
    split; [|split; [|split]]; intros; try congruence;
      injection H as <-; lia.
  - apply Z.ltb_ge in E.
    split; [|split; [|split]]; intros; try congruence;
      injection H as <-; lia.
  - split; [|split; [|split]]; intros; congruence.
Qed.

(** The cleaner returns exactly when the income column has a value. *)
Lemma preprocess_demographics_returns (csv : list demo_row) :
  (exists r, In r csv /\ d_avg_monthly_income r <> None) <->
  (exists out, preprocess_demographics csv = Some out).
Proof.
  unfold preprocess_demographics, income_mean.
  assert (Hn : forall l : list demo_row,
             non_null (map d_avg_monthly_income l) = [] <->
             forall r, In r l -> d_avg_monthly_income r = None).
  { induction l as [|a l IH]; simpl.
    - split; [intros _ r []|reflexivity].
    - destruct (d_avg_monthly_income a) eqn:E; simpl.
      + split; [discriminate|]. intros H.
        specialize (H a (or_introl eq_refl)). congruence.
      + rewrite IH. split.
        * intros H r [<-|Hr]; auto.
        * intros H r Hr. apply H. now right. }
  destruct (non_null (map d_avg_monthly_income csv)) eqn:E.
  - pose proof (proj1 (Hn csv) E) as E'. split.
    + intros (r & Hr & Hne). elim Hne. now apply E'.
    + intros (out & Hout). discriminate.
  - split; [intros _; eexists; reflexivity|]. intros _.
    assert (Hex : ~ (forall r, In r csv -> d_avg_monthly_income r = None)).
    { intros H. pose proof (proj2 (Hn csv) H). congruence. }
    clear E Hn. induction csv as [|a csv' IH].
    + elim Hex. intros r [].
    + destruct (d_avg_monthly_income a) eqn:Ea.
      * exists a. split; [now left|congruence].
      * destruct IH as (r & Hr & Hne).
        { intros H. apply Hex. intros r [<-|Hr]; auto. }
        exists r. split; [now right|assumption].
Qed.

(** C8. Every row that the demographics cleaner outputs has
    [chronic_conditions <= 5] (where the value is not null): one output row per
    input row, a value above 5 becomes exactly 5, and any other value, negative
    ones and null included, is left as it was (there is no lower bound). *)
Theorem preprocess_demographics_caps_chronic_conditions :
  forall csv out,
    preprocess_demographics csv = Some out ->
    Forall2 chronic_capped csv out.
Proof.
  intros csv out H. unfold preprocess_demographics in H.
  destruct (income_mean csv) as [m|]; [|discriminate].
  injection H as <-.
  apply Forall2_map_self. intros r _. unfold chronic_capped. simpl.
  apply cap_chronic_conditions_spec.
Qed.

(** ** The visits cleaner *)

(** C6, as stated, fails: the cleaner only fills and casts, so a raw
    [drop_off] of 2 is still 2 after cleaning. *)
Lemma preprocess_visits_drop_off_not_clamped :
  ~ Forall (fun r => v_drop_off r = Some 0 \/ v_drop_off r = Some 1)
      (preprocess_visits [visit_with_drop_off (Some 2)]).
Proof.
  intros H. inversion H as [|r l [Hd|Hd] _]; subst;
    vm_compute in Hd; discriminate.
Qed.

(** C6, amended. For every visit row whose raw [drop_off] is missing, 0 or 1,
    the cleaned [drop_off] is the integer 0 or 1: a missing value becomes 0,
    and 0 and 1 are kept. *)
Theorem preprocess_visits_drop_off_binary :
  forall csv,
    Forall (fun r => binary_or_null (v_drop_off r)) csv ->
    Forall2 drop_off_binary csv (preprocess_visits csv).
Proof.
  intros csv H. unfold preprocess_visits. rewrite map_map.
  apply Forall2_map_self. intros r Hr.
  rewrite Forall_forall in H. specialize (H r Hr).
  unfold drop_off_binary, imputed_with.
  destruct H as [H|[H|H]]; simpl; rewrite H; simpl;
    (split; [split|]); intros; try discriminate; auto;
    match goal with
    | E : Some _ = Some _ |- _ => injection E as <-; reflexivity
    end.
Qed.

Lemma preprocess_visits_drop_off_binary_witness :
  Forall (fun r => binary_or_null (v_drop_off r))
    [scenario_visit; visit_with_drop_off (Some 1)] /\
  Forall2 drop_off_binary
    [scenario_visit; visit_with_drop_off (Some 1)]
    (preprocess_visits [scenario_visit; visit_with_drop_off (Some 1)]).
Proof.
  assert (H : Forall (fun r => binary_or_null (v_drop_off r))
                [scenario_visit; visit_with_drop_off (Some 1)]).
  { constructor; [left; reflexivity|].
    constructor; [right; right; reflexivity|constructor]. }
  split; [exact H|].
  exact (preprocess_visits_drop_off_binary _ H).
Defined.

(** C7, as stated, fails: the cleaner fills six columns only.  A missing
    [num_visits], [time_in_waiting] or [satisfaction_score] (numeric) and a
    missing [doctor_assigned], [prescription_given] or
    [followup_recommended] (categorical) is still missing after cleaning. *)
Lemma preprocess_visits_leaves_other_columns_null :
  exists r,
    preprocess_visits [visit_only_key] = [r] /\
    v_num_visits r = None /\
    v_time_in_waiting r = None /\
    v_satisfaction_score r = None /\
    v_doctor_assigned r = None /\
    v_prescription_given r = None /\
    v_followup_recommended r = None.
Proof.
  eexists. split; [reflexivity|]. simpl. repeat split.
Qed.

(** C7, amended. In the visits cleaner the numeric columns [total_spent] and
    [visit_duration] (and the label [drop_off]) have missing values imputed
    with 0 and the categorical columns [visit_type], [department] and
    [appointment_day] have them imputed with "Unknown"; present values are
    kept, and every other column is passed through as it is. *)
Theorem preprocess_visits_imputes_listed_columns :
  forall csv, Forall2 visits_imputed csv (preprocess_visits csv).
Proof.
  intros csv. unfold preprocess_visits. rewrite map_map.
  apply Forall2_map_self. intros r _.
  unfold visits_imputed, imputed_with. simpl.
  destruct (v_total_spent r), (v_visit_duration r), (v_drop_off r),
    (v_visit_type r), (v_department r), (v_appointment_day r); simpl;
    repeat split; intros; congruence.
Qed.

Lemma preprocess_demographics_caps_chronic_conditions_witness :
  exists out,
    preprocess_demographics [scenario_demo] = Some out /\
    Forall2 chronic_capped [scenario_demo] out.
Proof.
  eexists. split; [reflexivity|].
  apply (preprocess_demographics_caps_chronic_conditions [scenario_demo]).
  reflexivity.
Defined.

(** ** Joins and groups *)

Lemma key_same_eq (a b : option Z) : Spark.key_same a b = true <-> a = b.
Proof.
  destruct a as [x|], b as [y|]; simpl; split; intros H;
    try discriminate; try reflexivity.
  - apply Z.eqb_eq in H. now subst.
  - injection H as ->. apply Z.eqb_refl.
Qed.

Lemma key_match_same (p : Z) (k : option Z) :
  Spark.key_match (Some p) k = Spark.key_same (Some p) k.
Proof. now destruct k. Qed.

Lemma key_match_eq (p : Z) (k : option Z) :
  Spark.key_match (Some p) k = true <-> k = Some p.
Proof.
  rewrite key_match_same, key_same_eq. split; congruence.
Qed.

Lemma key_match_None_l (k : option Z) : Spark.key_match None k = false.
Proof. reflexivity. Qed.

Lemma filter_map_length {A B : Type} (f : B -> bool) (g : A -> B)
    (l : list A) :
  List.length (filter f (map g l)) =
  List.length (filter (fun x => f (g x)) l).
Proof.
  induction l as [|a l IH]; simpl; [reflexivity|].
  destruct (f (g a)); simpl; now rewrite IH.
Qed.

Lemma filter_none {A : Type} (f : A -> bool) (l : list A) :
  (forall x, In x l -> f x = false) -> filter f l = [].
Proof.
  induction l as [|a l IH]; intros H; simpl; [reflexivity|].
  rewrite (H a (or_introl eq_refl)). apply IH.
  intros x Hx. apply H. now right.
Qed.

Lemma filter_all {A : Type} (f : A -> bool) (l : list A) :
  (forall x, In x l -> f x = true) -> filter f l = l.
Proof.
  induction l as [|a l IH]; intros H; simpl; [reflexivity|].
  rewrite (H a (or_introl eq_refl)). f_equal. apply IH.
  intros x Hx. apply H. now right.
Qed.

Lemma filter_length_le_filter {A : Type} (f g : A -> bool) (l : list A) :
  (List.length (filter f (filter g l)) <= List.length (filter f l))%nat.
Proof.
  induction l as [|a l IH]; simpl; [lia|].
  destruct (g a); simpl; destruct (f a); simpl; lia.
Qed.

(** [dropDuplicates] keeps rows of its input and at most one per key. *)
Lemma dropDuplicates_In {A : Type} (key : A -> option Z) (rows : list A)
    (r : A) :
  In r (Spark.dropDuplicates key rows) -> In r rows.
Proof.
  induction rows as [|a rows IH]; simpl; [tauto|].
  intros [H|H]; [now left|].
  apply filter_In in H. right. now apply IH.
Qed.

Lemma dropDuplicates_unique {A : Type} (key : A -> option Z)
    (rows : list A) (k : option Z) :
  (List.length
     (filter (fun r => Spark.key_same k (key r))
        (Spark.dropDuplicates key rows)) <= 1)%nat.
Proof.
  induction rows as [|a rows IH]; simpl; [lia|].
  destruct (Spark.key_same k (key a)) eqn:E; simpl.
  - apply key_same_eq in E. subst k.
    rewrite filter_none; [simpl; lia|].
    intros x Hx. apply filter_In in Hx. destruct Hx as [_ Hx].
    now apply negb_true_iff in Hx.
  - etransitivity; [apply filter_length_le_filter|exact IH].
Qed.

(** The rows an inner join has for a key: one per pair of matching rows. *)
Lemma inner_join_count {A B C : Type} (ka : A -> option Z)
    (kb : B -> option Z) (kc : C -> option Z) (mk : A -> B -> C) :
  (forall a b, kc (mk a b) = ka a) ->
  forall (p : Z) (l : list A) (r : list B),
    List.length
      (filter (fun c => Spark.key_match (Some p) (kc c))
         (Spark.inner_join ka kb mk l r)) =
    (List.length (filter (fun a => Spark.key_match (Some p) (ka a)) l) *
     List.length (filter (fun b => Spark.key_match (Some p) (kb b)) r))%nat.
Proof.
  intros Hk p l r. unfold Spark.inner_join.
  induction l as [|a l IH]; [reflexivity|].
  cbn [flat_map filter].
  rewrite filter_app, length_app, IH, filter_map_length.
  destruct (Spark.key_match (Some p) (ka a)) eqn:E; cbn [List.length].
  - rewrite filter_all.
    + apply key_match_eq in E. rewrite E. reflexivity.
    + intros b _. now rewrite Hk.
  - rewrite filter_none; [reflexivity|].
    intros b _. now rewrite Hk.
Qed.

(** With at most one right row per key, a left join keeps its left rows. *)
Lemma left_join_count {A B C : Type} (ka : A -> option Z)
    (kb : B -> option Z) (kc : C -> option Z) (mk : A -> option B -> C) :
  (forall a o, kc (mk a o) = ka a) ->
  forall (r : list B),
    (forall k,
        (List.length (filter (fun b => Spark.key_match k (kb b)) r) <= 1)%nat) ->
    forall (p : Z) (l : list A),
      List.length
        (filter (fun c => Spark.key_match (Some p) (kc c))
           (Spark.left_join ka kb mk l r)) =
      List.length (filter (fun a => Spark.key_match (Some p) (ka a)) l).
Proof.
  intros Hk r Hu p l. unfold Spark.left_join.
  induction l as [|a l IH]; [reflexivity|].
  cbn [flat_map filter].
  rewrite filter_app, length_app, IH.
  specialize (Hu (ka a)).
  destruct (filter (fun b => Spark.key_match (ka a) (kb b)) r)
    as [|b [|b' ms]]; cbn [List.length map filter] in *; try lia;
    rewrite Hk; destruct (Spark.key_match (Some p) (ka a)); reflexivity.
Qed.

(** A row of a left join comes from a left row, with a matching right row
    or, when none matches, with nulls. *)
Lemma left_join_In {A B C : Type} (ka : A -> option Z) (kb : B -> option Z)
    (mk : A -> option B -> C) (l : list A) (r : list B) (c : C) :
  In c (Spark.left_join ka kb mk l r) ->
  exists a, In a l /\
    ((c = mk a None /\
      forall b, In b r -> Spark.key_match (ka a) (kb b) = false) \/
     (exists b, c = mk a (Some b) /\ In b r /\
                Spark.key_match (ka a) (kb b) = true)).
Proof.
  unfold Spark.left_join. intros H. apply in_flat_map in H.
  destruct H as (a & Ha & Hc). exists a. split; [assumption|].
  destruct (filter (fun b => Spark.key_match (ka a) (kb b)) r) as [|b ms] eqn:E.
  - destruct Hc as [<-|[]]. left. split; [reflexivity|].
    intros b Hb. destruct (Spark.key_match (ka a) (kb b)) eqn:Eb; [|reflexivity].
    assert (Hin : In b (filter (fun b => Spark.key_match (ka a) (kb b)) r))
      by (apply filter_In; now split).
    rewrite E in Hin. destruct Hin.
  - right. apply in_map_iff in Hc. destruct Hc as (b0 & <- & Hb0).
    rewrite <- E in Hb0. apply filter_In in Hb0.
    exists b0. now repeat split.
Qed.

(** ** The integrator *)

Lemma unique_keys_match {A : Type} (key : A -> option Z) (l : list A) :
  (forall k,
      (List.length (filter (fun r => Spark.key_same k (key r)) l) <= 1)%nat) ->
  forall k,
    (List.length (filter (fun r => Spark.key_match k (key r)) l) <= 1)%nat.
Proof.
  intros H [q|].
  - rewrite (filter_ext _ (fun r => Spark.key_same (Some q) (key r))).
    + apply H.
    + intros r. apply key_match_same.
  - rewrite filter_none; [simpl; lia|]. reflexivity.
Qed.

Lemma latest_department_unique (df_logs : list log_event) (k : option Z) :
  (List.length
     (filter (fun d => Spark.key_match k (ld_patient_id d))
        (latest_department df_logs)) <= 1)%nat.
Proof.
  revert k. apply unique_keys_match. intros k.
  unfold latest_department. apply dropDuplicates_unique.
Qed.

Lemma log_counts_agg_unique (df_logs : list log_event) (k : option Z) :
  (List.length
     (filter (fun c => Spark.key_match k (c_patient_id c))
        (log_counts_agg df_logs)) <= 1)%nat.
Proof.
  revert k. apply unique_keys_match. intros k.
  unfold log_counts_agg. rewrite filter_map_length. cbn [c_patient_id].
  unfold group_keys, Spark.distinct_keys.
  apply (dropDuplicates_unique (fun k => k)).
Qed.

(** The aggregated log features have one row per patient at most. *)
Lemma df_log_features_unique (df_logs : list log_event) (k : option Z) :
  (List.length
     (filter (fun f => Spark.key_match k (lf_patient_id f))
        (df_log_features df_logs)) <= 1)%nat.
Proof.
  destruct k as [q|]; [|rewrite filter_none; [simpl; lia|reflexivity]].
  unfold df_log_features. rewrite filter_map_length.
  etransitivity; [|apply (log_counts_agg_unique df_logs (Some q))].
  apply Nat.eq_le_incl.
  apply (left_join_count c_patient_id ld_patient_id lf_patient_id).
  - reflexivity.
  - apply latest_department_unique.
Qed.

(** A feature row belongs to a patient of the logs. *)
Lemma df_log_features_key (df_logs : list log_event) (f : log_features) :
  In f (df_log_features df_logs) ->
  In (lf_patient_id f) (map l_patient_id df_logs).
Proof.
  unfold df_log_features. intros H.
  apply in_map_iff in H. destruct H as (x & <- & Hx).
  apply left_join_In in Hx. destruct Hx as (c & Hc & Hx).
  assert (Hk : lf_patient_id (fillna_log_features x) = c_patient_id c).
  { destruct Hx as [[-> _]|(d & -> & _)]; reflexivity. }
  rewrite Hk. unfold log_counts_agg in Hc.
  apply in_map_iff in Hc. destruct Hc as (k & <- & Hin). simpl.
  unfold group_keys, Spark.distinct_keys in Hin.
  now apply dropDuplicates_In in Hin.
Qed.

(** The integrated table has, for a patient, one row per pair of a
    demographics row and a visits row of that patient. *)
Lemma df_final_count (df_demo : list demo_row) (df_visits : list visit_row)
    (df_logs : list log_event) (p : Z) :
  List.length (rows_of p (df_final df_demo df_visits df_logs)) =
  (List.length
     (filter (fun d => Spark.key_match (Some p) (d_patient_id d)) df_demo) *
   List.length
     (filter (fun v => Spark.key_match (Some p) (v_patient_id v)) df_visits))%nat.
Proof.
  unfold rows_of, df_final. rewrite filter_map_length.
  etransitivity.
  - apply (left_join_count p_patient_id lf_patient_id f_patient_id).
    + reflexivity.
    + apply df_log_features_unique.
  - unfold df_patient.
    apply (inner_join_count d_patient_id v_patient_id p_patient_id).
    reflexivity.
Qed.

Lemma present_count {A : Type} (key : A -> option Z) (p : Z) (t : list A) :
  present key p t -> unique_patient_id key t ->
  List.length (filter (fun r => Spark.key_match (Some p) (key r)) t) = 1%nat.
Proof.
  intros (r & Hr & Hk) Hu. specialize (Hu p).
  assert (Hin : In r (filter (fun r => Spark.key_match (Some p) (key r)) t)).
  { apply filter_In. split; [assumption|]. now apply key_match_eq. }
  destruct (filter (fun r => Spark.key_match (Some p) (key r)) t) as [|x l];
    [destruct Hin|].
  simpl in *. lia.
Qed.

(** C2, as stated, fails: [patient_id] is unique in the demographics table
    and patient 1 is in both tables, yet two visits rows of patient 1 give two
    integrated rows. *)
Lemma df_final_row_per_visit :
  unique_patient_id d_patient_id [scenario_demo] /\
  present d_patient_id 1 [scenario_demo] /\
  present v_patient_id 1 [scenario_visit; visit_with_drop_off (Some 1)] /\
  List.length
    (rows_of 1
       (df_final [scenario_demo]
          [scenario_visit; visit_with_drop_off (Some 1)] scenario_logs))
  = 2%nat.
Proof.
  split; [|split; [|split]].
  - intros q. simpl. destruct (q =? 1); simpl; lia.
  - exists scenario_demo. split; [now left|reflexivity].
  - exists scenario_visit. split; [now left|reflexivity].
  - vm_compute. reflexivity.
Qed.

(** C2, amended. Assuming [patient_id] is unique within the demographics
    table and within the visits table, for every [patient_id] present in
    both, the integrated table contains exactly one row for it. *)
Theorem df_final_one_row_per_patient :
  forall df_demo df_visits df_logs p,
    unique_patient_id d_patient_id df_demo ->
    unique_patient_id v_patient_id df_visits ->
    present d_patient_id p df_demo ->
    present v_patient_id p df_visits ->
    List.length (rows_of p (df_final df_demo df_visits df_logs)) = 1%nat.
Proof.
  intros df_demo df_visits df_logs p Ud Uv Pd Pv.
  rewrite df_final_count.
  rewrite (present_count d_patient_id p df_demo Pd Ud).
  rewrite (present_count v_patient_id p df_visits Pv Uv).
  reflexivity.
Qed.

Lemma df_final_one_row_per_patient_witness :
  List.length
    (rows_of 1 (df_final [scenario_demo] [scenario_visit] scenario_logs))
  = 1%nat.
Proof.
  apply df_final_one_row_per_patient.
  - intros q. simpl. destruct (q =? 1); simpl; lia.
  - intros q. simpl. destruct (q =? 1); simpl; lia.
  - exists scenario_demo. split; [now left|reflexivity].
  - exists scenario_visit. split; [now left|reflexivity].
Defined.

(** C3. For a patient of the demographics-visits join that has no event in
    the logs, every integrated row (there is one per row of the join) has
    [log_count = 0], [critical_logs = 0], [unique_events = 0] and
    [most_recent_department = "Unknown"]. *)
Theorem df_final_absent_from_logs :
  forall df_demo df_visits df_logs p,
    (forall e, In e df_logs -> l_patient_id e <> Some p) ->
    List.length (rows_of p (df_final df_demo df_visits df_logs)) =
    List.length
      (filter (fun a => Spark.key_match (Some p) (p_patient_id a))
         (df_patient df_demo df_visits)) /\
    forall r,
      In r (df_final df_demo df_visits df_logs) ->
      f_patient_id r = Some p ->
      f_log_count r = Some 0 /\
      f_critical_logs r = Some 0 /\
      f_unique_events r = Some 0 /\
      f_most_recent_department r = Some "Unknown".
Proof.
  intros df_demo df_visits df_logs p Hno. split.
  - unfold rows_of, df_final. rewrite filter_map_length.
    apply (left_join_count p_patient_id lf_patient_id f_patient_id).
    + reflexivity.
    + apply df_log_features_unique.
  - intros r Hr Hp. unfold df_final in Hr.
    apply in_map_iff in Hr. destruct Hr as (x & <- & Hx).
    apply left_join_In in Hx. destruct Hx as (a & _ & Hx).
    destruct Hx as [[-> _]|(f & -> & Hf & Hm)].
    + repeat split.
    + exfalso. change (d_patient_id (p_demo a) = Some p) in Hp.
      unfold p_patient_id in Hm. rewrite Hp in Hm.
      apply key_match_eq in Hm.
      apply df_log_features_key in Hf. rewrite Hm in Hf.
      apply in_map_iff in Hf. destruct Hf as (e & He & Hin).
      exact (Hno e Hin He).
Qed.

Lemma df_final_absent_from_logs_witness :
  (forall e, In e unrelated_logs -> l_patient_id e <> Some 1) /\
  Forall
    (fun r =>
       f_log_count r = Some 0 /\
       f_critical_logs r = Some 0 /\
       f_unique_events r = Some 0 /\
       f_most_recent_department r = Some "Unknown")
    (df_final [scenario_demo] [scenario_visit] unrelated_logs).
Proof.
  assert (Hno : forall e, In e unrelated_logs -> l_patient_id e <> Some 1).
  { intros e [<-|[]]. discriminate. }
  split; [exact Hno|].
  apply Forall_forall. intros r Hr.
  apply (proj2 (df_final_absent_from_logs
                  [scenario_demo] [scenario_visit] unrelated_logs 1 Hno)
           r Hr).
  destruct Hr as [<-|[]]. reflexivity.
Defined.

(** ** The notebook, end to end *)

(** Whatever the cleaning cells computed, the integration cell merges the
    tables it reads again from the files. *)
Lemma run_notebook_df_final (fs : datasets) (g : globals) :
  run_notebook fs = Some g ->
  g_df_final g =
  df_final (patient_demographics_csv fs) (patient_visits_csv fs)
    (map cast_log (hospital_logs_xml fs)).
Proof.
  unfold run_notebook, cell_demographics, cell_visits, cell_logs,
    cell_integration, bind.
  destruct (preprocess_demographics (patient_demographics_csv fs));
    [|discriminate].
  destruct (hospital_logs_xml fs); [discriminate|].
  intros H. injection H as <-. reflexivity.
Qed.

(** C1 on the code. In the scenario (patient 1, gender "M", 7 chronic
    conditions, a visit without [drop_off], two events of which one is
    critical) the notebook runs and its integrated table has one row for
    patient 1, with [log_count = 2] and [critical_logs = 1] but with the raw
    [gender = "M"], [chronic_conditions = 7] and a null [drop_off]. *)
Theorem run_notebook_scenario_row :
  exists g r,
    run_notebook scenario = Some g /\
    rows_of 1 (g_df_final g) = [r] /\
    d_gender (f_demo r) = Some "M" /\
    d_chronic_conditions (f_demo r) = Some 7 /\
    v_drop_off (f_visit r) = None /\
    f_log_count r = Some 2 /\
    f_critical_logs r = Some 1.
Proof.
  do 2 eexists. split; [vm_compute; reflexivity|].
  split; [vm_compute; reflexivity|].
  repeat split.
Qed.

(** The same merge on the tables the two cleaners return gives the row the
    end-to-end property describes. *)
Lemma df_final_of_cleaned_scenario :
  exists df_demo r,
    preprocess_demographics (patient_demographics_csv scenario)
      = Some df_demo /\
    rows_of 1
      (df_final df_demo (preprocess_visits (patient_visits_csv scenario))
         (map cast_log (hospital_logs_xml scenario))) = [r] /\
    d_gender (f_demo r) = Some "Male" /\
    d_chronic_conditions (f_demo r) = Some 5 /\
    v_drop_off (f_visit r) = Some 0 /\
    f_log_count r = Some 2 /\
    f_critical_logs r = Some 1.
Proof.
  do 2 eexists. split; [vm_compute; reflexivity|].
  split; [vm_compute; reflexivity|].
  repeat split.
Qed.

(** ** The feature encoder *)

Lemma insert_by_perm {A : Type} (leb : A -> A -> bool) (a : A) (l : list A) :
  Permutation (insert_by leb a l) (a :: l).
Proof.
  induction l as [|b l IH]; simpl; [reflexivity|].
  destruct (leb a b); [reflexivity|].
  rewrite IH. apply perm_swap.
Qed.

Lemma sort_by_perm {A : Type} (leb : A -> A -> bool) (l : list A) :
  Permutation (sort_by leb l) l.
Proof.
  induction l as [|a l IH]; simpl; [reflexivity|].
  rewrite insert_by_perm. now constructor.
Qed.

Lemma non_null_In {A : Type} (col : list (option A)) (x : A) :
  In x (non_null col) <-> In (Some x) col.
Proof.
  unfold non_null. rewrite in_flat_map. split.
  - intros ([y|] & Hy & Hx); [|destruct Hx].
    destruct Hx as [<-|[]]. exact Hy.
  - intros H. exists (Some x). split; [exact H|now left].
Qed.

(** The labels are the values seen at fit time, each once. *)
Lemma StringIndexer_fit_In (col : list (option string)) (s : string) :
  In s (StringIndexer_fit col) <-> In (Some s) col.
Proof.
  unfold StringIndexer_fit. split; intros H.
  - apply (Permutation_in _ (sort_by_perm _ _)) in H.
    apply nodup_In in H. now apply non_null_In.
  - apply non_null_In in H. apply (nodup_In string_dec) in H.
    exact (Permutation_in _ (Permutation_sym (sort_by_perm _ _)) H).
Qed.

Lemma StringIndexer_fit_length (col : list (option string)) :
  List.length (StringIndexer_fit col) = cardinality col.
Proof.
  unfold StringIndexer_fit, cardinality.
  apply Permutation_length, sort_by_perm.
Qed.

Lemma index_of_In (s : string) (labels : list string) :
  In s labels ->
  exists i, index_of s labels = Some i /\ (i < List.length labels)%nat.
Proof.
  induction labels as [|l t IH]; simpl; [tauto|].
  intros H. destruct (String.eqb s l) eqn:E.
  - exists O. split; [reflexivity|lia].
  - destruct H as [H|H].
    + subst l. rewrite String.eqb_refl in E. discriminate.
    + destruct (IH H) as (i & -> & Hi). exists (S i). split; [reflexivity|lia].
Qed.

Lemma StringIndexer_transform_seen (col : list (option string)) (s : string) :
  In (Some s) col ->
  (StringIndexer_transform (StringIndexer_fit col) (Some s)
   < List.length (StringIndexer_fit col))%nat.
Proof.
  intros H. apply StringIndexer_fit_In in H.
  destruct (index_of_In _ _ H) as (i & Hi & Hlt).
  unfold StringIndexer_transform. now rewrite Hi.
Qed.

(** The dense form of a one-hot vector, slot by slot. *)
Lemma one_hot_slot (i j : nat) :
  sv_get [i] [1%Q] j = if (i =? j)%nat then 1%Q else 0%Q.
Proof. reflexivity. Qed.

Lemma one_hot_nonzeros_after (i s n : nat) :
  (i < s)%nat ->
  filter nonzero (map (sv_get [i] [1%Q]) (seq s n)) = [].
Proof.
  intros H. apply filter_none. intros x Hx.
  apply in_map_iff in Hx. destruct Hx as (j & <- & Hj).
  apply in_seq in Hj. rewrite one_hot_slot.
  replace (i =? j)%nat with false by (symmetry; apply Nat.eqb_neq; lia).
  reflexivity.
Qed.

Lemma one_hot_nonzeros (i s n : nat) :
  (s <= i < s + n)%nat ->
  List.length (filter nonzero (map (sv_get [i] [1%Q]) (seq s n))) = 1%nat.
Proof.
  revert s. induction n as [|n IH]; intros s H; [lia|].
  cbn [seq map filter]. rewrite one_hot_slot.
  destruct (i =? s)%nat eqn:E.
  - apply Nat.eqb_eq in E. subst i.
    change (nonzero 1%Q) with true. cbv iota.
    rewrite one_hot_nonzeros_after by lia. reflexivity.
  - apply Nat.eqb_neq in E.
    change (nonzero 0%Q) with false. cbv iota. apply IH. lia.
Qed.

Lemma one_hot_first_nonzero (i s n k : nat) :
  (s <= i < s + n)%nat ->
  first_nonzero (map (sv_get [i] [1%Q]) (seq s n)) k = Some (k + (i - s))%nat.
Proof.
  revert s k. induction n as [|n IH]; intros s k H; [lia|]. simpl.
  destruct (i =? s)%nat eqn:E; simpl.
  - apply Nat.eqb_eq in E. subst. f_equal. lia.
  - apply Nat.eqb_neq in E. rewrite IH by lia. f_equal. lia.
Qed.

Lemma one_hot_nth (i n : nat) :
  (i < n)%nat ->
  nth i (map (sv_get [i] [1%Q]) (seq 0 n)) (0%Q) = 1%Q.
Proof.
  intros H.
  rewrite (nth_indep _ (0%Q) (sv_get [i] [1%Q] O))
    by (rewrite length_map, length_seq; exact H).
  rewrite map_nth, seq_nth by exact H. simpl.
  now rewrite Nat.eqb_refl.
Qed.

(** The encoder on an index of a label and on the additional index. *)
Lemma OneHotEncoder_transform_label (n i : nat) :
  (i < n)%nat ->
  OneHotEncoder_transform (S n) i =
  Some {| sv_size := n; sv_indices := [i]; sv_values := [1%Q] |}.
Proof.
  intros H. unfold OneHotEncoder_transform.
  replace (i <? S n)%nat with true by (symmetry; apply Nat.ltb_lt; lia).
  replace (S n - 1)%nat with n by lia.
  replace (i <? n)%nat with true by (symmetry; apply Nat.ltb_lt; lia).
  reflexivity.
Qed.

Lemma OneHotEncoder_transform_last (n : nat) :
  OneHotEncoder_transform (S n) n =
  Some {| sv_size := n; sv_indices := []; sv_values := [] |}.
Proof.
  unfold OneHotEncoder_transform.
  replace (n <? S n)%nat with true by (symmetry; apply Nat.ltb_lt; lia).
  replace (S n - 1)%nat with n by lia.
  rewrite Nat.ltb_irrefl. reflexivity.
Qed.

Lemma zero_vector_nonzeros (n : nat) :
  numNonzeros {| sv_size := n; sv_indices := []; sv_values := [] |} = 0%nat.
Proof.
  unfold numNonzeros, toArray. simpl.
  rewrite filter_none; [reflexivity|].
  intros x Hx. apply in_map_iff in Hx. destruct Hx as (j & <- & _).
  reflexivity.
Qed.

(** The encoder's fit succeeds exactly on a column with a label. *)
Lemma OneHotEncoder_fit_labels (labels : list string) :
  (labels <> [] ->
   OneHotEncoder_fit labels = Some (S (List.length labels))) /\
  (labels = [] -> OneHotEncoder_fit labels = None).
Proof.
  destruct labels; simpl; split; intros H; congruence.
Qed.

Lemma OneHotEncoder_fit_cardinality (col : list (option string)) :
  (1 <= cardinality col)%nat ->
  OneHotEncoder_fit (StringIndexer_fit col) = Some (S (cardinality col)).
Proof.
  intros H. rewrite <- StringIndexer_fit_length in *.
  apply OneHotEncoder_fit_labels.
  destruct (StringIndexer_fit col); simpl in *; [lia|discriminate].
Qed.

(** On a column without any non-null value the turn of the loop raises. *)
Lemma encode_column_without_label
    (c : string * (final_row -> option string)) (df : list final_row) :
  cardinality (column c df) = 0%nat -> encode_column c df = None.
Proof.
  intros H. unfold encode_column.
  rewrite <- StringIndexer_fit_length in H.
  destruct (StringIndexer_fit (column c df)); [reflexivity|discriminate].
Qed.

(** C4, as stated, fails: with the labels "No" and "Yes" and a null in
    [has_mobile_app], the category size is 3 with the additional bucket, the
    vectors have 2 slots, and the vector of the null has no nonzero entry. *)
Lemma encode_column_null_has_no_slot :
  In has_mobile_app_col categorical_cols /\
  OneHotEncoder_fit (StringIndexer_fit (column has_mobile_app_col three_apps))
  = Some 3%nat /\
  exists out v,
    encode_column has_mobile_app_col three_apps = Some out /\
    nth 2 out (O, None) = (2%nat, Some v) /\
    sv_size v = 2%nat /\
    numNonzeros v = 0%nat.
Proof.
  split; [do 10 right; left; reflexivity|].
  split; [vm_compute; reflexivity|].
  do 2 eexists. split; [vm_compute; reflexivity|].
  split; [reflexivity|]. split; reflexivity.
Qed.

(** C4, amended. For every column in the fixed list of categorical columns
    that has at least one non-null value (on a column without one the
    encoder's fit raises), the encoding loop returns, and the one-hot
    encoding of an indexed value is a vector whose dimension is the number
    of distinct values of the column (the reserved "unseen" index is the
    dropped last category and takes no slot); the vector of a value of the
    column has exactly one nonzero entry, the 1 at its index, and the vector
    of a null, which is indexed as "unseen", has none. *)
Theorem encode_column_one_hot :
  forall c df,
    In c categorical_cols ->
    (1 <= cardinality (column c df))%nat ->
    exists out,
      encode_column c df = Some out /\
      Forall2
        (fun r o => one_hot_encoded (cardinality (column c df)) (snd c r) o)
        df out.
Proof.
  intros c df _ Hcard. unfold encode_column.
  rewrite (OneHotEncoder_fit_cardinality _ Hcard).
  eexists. split; [reflexivity|].
  rewrite <- StringIndexer_fit_length.
  set (labels := StringIndexer_fit (column c df)).
  unfold column. rewrite map_map.
  apply Forall2_map_self. intros r Hr.
  unfold one_hot_encoded. cbn [fst snd].
  destruct (snd c r) as [s|] eqn:E.
  - assert (Hlt : (StringIndexer_transform labels (Some s)
                   < List.length labels)%nat).
    { apply StringIndexer_transform_seen. unfold column.
      rewrite <- E. now apply in_map. }
    rewrite (OneHotEncoder_transform_label _ _ Hlt).
    eexists. split; [reflexivity|]. split; [reflexivity|].
    split; [|discriminate]. intros _.
    split; [exact Hlt|]. split.
    + unfold numNonzeros, toArray. cbn [sv_size sv_indices sv_values].
      apply one_hot_nonzeros. lia.
    + unfold toArray. cbn [sv_size sv_indices sv_values].
      now apply one_hot_nth.
  - cbn [StringIndexer_transform].
    rewrite OneHotEncoder_transform_last.
    eexists. split; [reflexivity|]. split; [reflexivity|].
    split; [congruence|]. intros _.
    split; [reflexivity|apply zero_vector_nonzeros].
Qed.

Lemma encode_column_one_hot_witness :
  In has_mobile_app_col categorical_cols /\
  (1 <= cardinality (column has_mobile_app_col three_apps))%nat /\
  exists out,
    encode_column has_mobile_app_col three_apps = Some out /\
    Forall2
      (fun r o =>
         one_hot_encoded (cardinality (column has_mobile_app_col three_apps))
           (snd has_mobile_app_col r) o)
      three_apps out.
Proof.
  assert (H : In has_mobile_app_col categorical_cols)
    by (do 10 right; left; reflexivity).
  assert (Hc : (1 <= cardinality (column has_mobile_app_col three_apps))%nat)
    by (apply Nat.leb_le; reflexivity).
  split; [exact H|]. split; [exact Hc|].
  exact (encode_column_one_hot has_mobile_app_col three_apps H Hc).
Defined.

(** C5. For every column in the fixed list and every value seen at fit time,
    the encoder's fit succeeds, and indexing the value, expanding the index
    to its one-hot vector and reading the position of the nonzero entry back
    gives the index again. *)
Theorem one_hot_round_trip :
  forall c df s,
    In c categorical_cols ->
    In (Some s) (column c df) ->
    exists categorySize v,
      OneHotEncoder_fit (StringIndexer_fit (column c df))
      = Some categorySize /\
      OneHotEncoder_transform categorySize
        (StringIndexer_transform (StringIndexer_fit (column c df)) (Some s))
      = Some v /\
      decode_one_hot v =
      Some (StringIndexer_transform (StringIndexer_fit (column c df)) (Some s)).
Proof.
  intros c df s _ Hs.
  pose proof (StringIndexer_transform_seen _ _ Hs) as Hlt.
  exists (S (List.length (StringIndexer_fit (column c df)))).
  rewrite (OneHotEncoder_transform_label _ _ Hlt).
  eexists. split.
  - apply OneHotEncoder_fit_labels. intros E. rewrite E in Hlt.
    simpl in Hlt. lia.
  - split; [reflexivity|].
    unfold decode_one_hot, toArray. cbn [sv_size sv_indices sv_values].
    rewrite one_hot_first_nonzero by lia. f_equal. lia.
Qed.

Lemma one_hot_round_trip_witness :
  exists categorySize v,
    OneHotEncoder_fit
      (StringIndexer_fit (column has_mobile_app_col three_apps))
    = Some categorySize /\
    OneHotEncoder_transform categorySize
      (StringIndexer_transform
         (StringIndexer_fit (column has_mobile_app_col three_apps))
         (Some "Yes"))
    = Some v /\
    decode_one_hot v =
    Some (StringIndexer_transform
            (StringIndexer_fit (column has_mobile_app_col three_apps))
            (Some "Yes")).
Proof.
  apply (one_hot_round_trip has_mobile_app_col three_apps "Yes").
  - do 10 right. left. reflexivity.
  - left. reflexivity.
Defined.

(** ** Sampling *)

Lemma map_snd_combine_same_length {A B : Type} (l : list A) (l' : list B) :
  List.length l = List.length l' -> map snd (combine l l') = l'.
Proof.
  revert l'. induction l as [|a l IH]; intros [|b l'] H; simpl in *;
    try discriminate; [reflexivity|].
  f_equal. apply IH. lia.
Qed.

(** [orderBy(rand())] only reorders. *)
Lemma orderBy_rand_perm {row : Type} (key : nat -> Q) (rows : list row) :
  Permutation (orderBy_rand key rows) rows.
Proof.
  unfold orderBy_rand.
  rewrite sort_by_perm.
  rewrite map_snd_combine_same_length; [reflexivity|].
  now rewrite length_map, length_seq.
Qed.

Section Balancer.

Variable row : Type.
Variable row_eq_dec : forall x y : row, {x = y} + {x <> y}.
Variable drop_off : row -> option Z.

Lemma count_occ_filter (f : row -> bool) (l : list row) (r : row) :
  count_occ row_eq_dec (filter f l) r =
  if f r then count_occ row_eq_dec l r else 0%nat.
Proof.
  induction l as [|a l IH]; simpl; [now destruct (f r)|].
  destruct (row_eq_dec a r) as [->|Hne].
  - destruct (f r) eqn:E; simpl.
    + destruct (row_eq_dec r r); [|contradiction]. now rewrite IH.
    + exact IH.
  - destruct (f a); simpl; [|exact IH].
    destruct (row_eq_dec a r); [contradiction|exact IH].
Qed.

(** Sampling without replacement: no row is taken more often than it is
    there. *)
Lemma sample_cell_count_le (lb ub : Q) (draw : nat -> Q) (i : nat)
    (rows : list row) (r : row) :
  (count_occ row_eq_dec (sample_cell lb ub draw i rows) r
   <= count_occ row_eq_dec rows r)%nat.
Proof.
  revert i. induction rows as [|a rows IH]; intros i; simpl; [lia|].
  specialize (IH (S i)).
  destruct (in_cell lb ub (draw i)); simpl;
    destruct (row_eq_dec a r); lia.
Qed.

Lemma df_balanced_count (draw key : nat -> Q) (df_clustered : list row)
    (r : row) :
  count_occ row_eq_dec (df_balanced drop_off draw key df_clustered) r =
  (count_occ row_eq_dec (df_major_sampled drop_off draw df_clustered) r +
   count_occ row_eq_dec (df_minor drop_off df_clustered) r)%nat.
Proof.
  unfold df_balanced.
  rewrite (proj1 (Permutation_count_occ row_eq_dec _ _)
             (orderBy_rand_perm key _)).
  apply count_occ_app.
Qed.

Lemma df_balanced_count_le (draw key : nat -> Q) (df_clustered : list row)
    (r : row) :
  (count_occ row_eq_dec (df_balanced drop_off draw key df_clustered) r
   <= count_occ row_eq_dec df_clustered r)%nat.
Proof.
  rewrite df_balanced_count.
  unfold df_major_sampled, sample, df_minor.
  pose proof (sample_cell_count_le 0 majority_fraction draw 0
                (df_major drop_off df_clustered) r) as H.
  unfold df_major in *. rewrite count_occ_filter in *.
  destruct (drop_off r) as [x|]; simpl in *; [|lia].
  destruct (x =? 0) eqn:E0; destruct (x =? 1) eqn:E1; simpl in *; lia.
Qed.

(** C9. The balancer's output has every minority row ([drop_off = 1]) of
    its input, as often as the input has it; a majority row ([drop_off = 0])
    is there at most as often as in the input, the majority class being
    sampled without replacement; so rows that are distinct in the input
    appear at most once in the output. *)
Theorem df_balanced_keeps_minority_samples_majority :
  forall (draw key : nat -> Q) (df_clustered : list row),
    (forall r, drop_off r = Some 1 ->
       count_occ row_eq_dec (df_balanced drop_off draw key df_clustered) r =
       count_occ row_eq_dec df_clustered r) /\
    (forall r, drop_off r = Some 0 ->
       (count_occ row_eq_dec (df_balanced drop_off draw key df_clustered) r
        <= count_occ row_eq_dec df_clustered r)%nat) /\
    (NoDup df_clustered ->
     NoDup (df_balanced drop_off draw key df_clustered)).
Proof.
  intros draw key df_clustered. split; [|split].
  - intros r Hr. rewrite df_balanced_count.
    unfold df_major_sampled, sample, df_minor.
    pose proof (sample_cell_count_le 0 majority_fraction draw 0
                  (df_major drop_off df_clustered) r) as H.
    unfold df_major in *. rewrite count_occ_filter in *.
    rewrite Hr in *. simpl in *. lia.
  - intros r _. apply df_balanced_count_le.
  - intros H. apply (NoDup_count_occ row_eq_dec). intros r.
    etransitivity; [apply df_balanced_count_le|].
    now apply (NoDup_count_occ row_eq_dec).
Qed.

End Balancer.

Lemma df_balanced_keeps_minority_samples_majority_witness :
  count_occ labelled_eq_dec
    (df_balanced snd example_draw example_draw labelled_rows)
    (2%nat, Some 1) = 1%nat /\
  (count_occ labelled_eq_dec
     (df_balanced snd example_draw example_draw labelled_rows)
     (3%nat, Some 0%Z) <= 1)%nat /\
  NoDup (df_balanced snd example_draw example_draw labelled_rows).
Proof.
  destruct (df_balanced_keeps_minority_samples_majority
              (nat * option Z) labelled_eq_dec snd
              example_draw example_draw labelled_rows) as (H1 & H0 & Hn).
  split; [exact (H1 (2%nat, Some 1) eq_refl)|].
  split; [exact (H0 (3%nat, Some 0) eq_refl)|].
  apply Hn. unfold labelled_rows.
  repeat constructor; simpl; intuition congruence.
Defined.

(** ** The train/test split *)

(** The two cells of the 70/30 split. *)
Lemma split_cells :
  exists a b,
    sliding2 (normalizedCumWeights split_weights) = [(0%Q, a); (a, b)] /\
    (a == 7 # 10)%Q /\ (b == 1)%Q.
Proof.
  do 2 eexists. split; [vm_compute; reflexivity|].
  split; reflexivity.
Qed.

(** A draw of [[0, 1)] falls in exactly one of two cells that meet. *)
Lemma in_cell_complement (a b x : Q) :
  (b == 1)%Q -> (0 <= x)%Q -> (x < 1)%Q ->
  in_cell 0 a x = negb (in_cell a b x).
Proof.
  intros Hb H0 H1. unfold in_cell.
  assert (E0 : Qle_bool 0 x = true) by now apply Qle_bool_iff.
  assert (E1 : Qle_bool b x = false).
  { destruct (Qle_bool b x) eqn:E; [|reflexivity].
    apply Qle_bool_iff in E. rewrite Hb in E.
    exfalso. apply (Qlt_irrefl x).
    eapply Qlt_le_trans; eassumption. }
  rewrite E0, E1. simpl. now rewrite andb_true_r.
Qed.

Lemma sample_cell_complement {row : Type} (lb1 ub1 lb2 ub2 : Q)
    (draw : nat -> Q) (rows : list row) :
  (forall i, in_cell lb1 ub1 (draw i) = negb (in_cell lb2 ub2 (draw i))) ->
  forall i,
    Permutation
      (sample_cell lb1 ub1 draw i rows ++ sample_cell lb2 ub2 draw i rows)
      rows.
Proof.
  intros H. induction rows as [|r rows IH]; intros i; simpl; [constructor|].
  rewrite H. destruct (in_cell lb2 ub2 (draw i)); simpl.
  - symmetry. apply Permutation_cons_app. symmetry. apply IH.
  - constructor. apply IH.
Qed.

(** C10. Whatever the table and the draws of the seed, the 70/30 split
    returns a train set and a test set that together are the input rows, each
    as often as the input has it; when the rows of the input are distinct, no
    row is in both. *)
Theorem randomSplit_partitions :
  forall (row : Type) (draw : nat -> Q) (rows : list row),
    (forall i, (0 <= draw i)%Q /\ (draw i < 1)%Q) ->
    exists train test,
      randomSplit split_weights draw rows = [train; test] /\
      Permutation (train ++ test) rows /\
      (forall r, In r rows -> In r train \/ In r test) /\
      (NoDup rows -> forall r, ~ (In r train /\ In r test)).
Proof.
  intros row draw rows Hd.
  destruct split_cells as (a & b & Hc & _ & Hb).
  unfold randomSplit. rewrite Hc. cbn [map fst snd].
  do 2 eexists. split; [reflexivity|].
  assert (HP : Permutation
                 (sample_cell 0 a draw 0 rows ++ sample_cell a b draw 0 rows)
                 rows).
  { apply sample_cell_complement. intros i.
    apply in_cell_complement; [exact Hb|apply Hd|apply Hd]. }
  split; [exact HP|]. split.
  - intros r Hr. apply in_app_or.
    exact (Permutation_in _ (Permutation_sym HP) Hr).
  - intros Hn r [Ht Hs].
    apply (Permutation_NoDup (Permutation_sym HP)) in Hn.
    apply in_split in Ht. destruct Ht as (l1 & l2 & Et).
    rewrite Et in Hn. rewrite <- app_assoc in Hn.
    apply NoDup_app_remove_l in Hn. simpl in Hn.
    apply NoDup_cons_iff in Hn. destruct Hn as [Hn _].
    apply Hn. apply in_or_app. now right.
Qed.

Lemma randomSplit_partitions_witness :
  exists train test,
    randomSplit split_weights example_draw labelled_rows = [train; test] /\
    Permutation (train ++ test) labelled_rows /\
    (forall r, In r labelled_rows -> In r train \/ In r test) /\
    (NoDup labelled_rows -> forall r, ~ (In r train /\ In r test)).
Proof.
  apply (randomSplit_partitions (nat * option Z) example_draw labelled_rows).
  intros i. unfold example_draw.
  destruct (Nat.even i); split; vm_compute; congruence.
Defined.

(** * Further properties of the notebook *)

(** ** The demographics cleaner, column by column *)

Lemma standardize_gender_spec (g : option string) :
  let c := standardize_gender (Spark.fillna categorical_demo_fill g) in
  (g = Some "M" \/ g = Some "Male" -> c = Some "Male") /\
  (g = Some "F" \/ g = Some "Female" -> c = Some "Female") /\
  (g <> Some "M" -> g <> Some "Male" -> g <> Some "F" ->
   g <> Some "Female" -> c = Some "Other") /\
  (c = Some "Male" \/ c = Some "Female" \/ c = Some "Other").
Proof.
  destruct g as [s|]; cbv zeta.
  - unfold standardize_gender, Spark.fillna, Spark.isin, Spark.holds.
    cbn [existsb].
    destruct (String.eqb_spec s "M") as [->|HM];
      [cbn; repeat split; intros; try tauto; try congruence;
       destruct H as [H|H]; discriminate|].
    destruct (String.eqb_spec s "Male") as [->|HMale];
      [cbn; repeat split; intros; try tauto; try congruence;
       destruct H as [H|H]; discriminate|].
    destruct (String.eqb_spec s "F") as [->|HF];
      [cbn; repeat split; intros; try tauto; try congruence;
       destruct H as [H|H]; discriminate|].
    destruct (String.eqb_spec s "Female") as [->|HFemale];
      [cbn; repeat split; intros; try tauto; try congruence;
       destruct H as [H|H]; discriminate|].
    cbn. repeat split; intros; try tauto;
      destruct H as [H|H]; congruence.
  - cbn. repeat split; intros; try tauto;
      destruct H as [H|H]; discriminate.
Qed.

(** X1. After the demographics cleaner, [gender] is "Male", "Female" or
    "Other" and never null: "M" and "Male" give "Male", "F" and "Female" give
    "Female", and everything else, a missing gender included, gives "Other"
    (the "Unknown" that fills a missing gender does not survive). *)
Theorem preprocess_demographics_standardizes_gender :
  forall csv out,
    preprocess_demographics csv = Some out ->
    Forall2 gender_standardized csv out.
Proof.
  intros csv out H. unfold preprocess_demographics in H.
  destruct (income_mean csv) as [m|]; [|discriminate].
  injection H as <-.
  apply Forall2_map_self. intros r _. unfold gender_standardized.
  cbn [d_gender clean_demo_row].
  apply standardize_gender_spec.
Qed.

Lemma preprocess_demographics_standardizes_gender_witness :
  exists out,
    preprocess_demographics [scenario_demo; demo_missing] = Some out /\
    Forall2 gender_standardized [scenario_demo; demo_missing] out.
Proof.
  eexists. split; [reflexivity|].
  apply (preprocess_demographics_standardizes_gender
           [scenario_demo; demo_missing]).
  reflexivity.
Defined.

Lemma fillna_imputed {A : Type} (d : A) (c : option A) :
  imputed_with d c (Spark.fillna d c).
Proof.
  unfold imputed_with. destruct c; simpl; split; intros; congruence.
Qed.

(** X2. The demographics cleaner imputes a missing [insurance],
    [marital_status], [education_level], [employment_status] and
    [language_preference] with "Unknown" and keeps the values that are
    present; [has_mobile_app] is not imputed, and [patient_id], [age] and
    [zipcode] pass through. *)
Theorem preprocess_demographics_imputes_categoricals :
  forall csv out,
    preprocess_demographics csv = Some out ->
    Forall2 demo_categoricals_imputed csv out.
Proof.
  intros csv out H. unfold preprocess_demographics in H.
  destruct (income_mean csv) as [m|]; [|discriminate].
  injection H as <-.
  apply Forall2_map_self. intros r _. unfold demo_categoricals_imputed.
  cbn [clean_demo_row d_insurance d_marital_status d_education_level
       d_employment_status d_language_preference d_has_mobile_app
       d_patient_id d_age d_zipcode].
  repeat split; try apply fillna_imputed.
Qed.

Lemma preprocess_demographics_imputes_categoricals_witness :
  exists out,
    preprocess_demographics [scenario_demo; demo_missing] = Some out /\
    Forall2 demo_categoricals_imputed [scenario_demo; demo_missing] out.
Proof.
  eexists. split; [reflexivity|].
  apply (preprocess_demographics_imputes_categoricals
           [scenario_demo; demo_missing]).
  reflexivity.
Defined.

(** X3. After the demographics cleaner, [avg_monthly_income] is never null:
    an income that is present is kept, and all the missing ones are replaced
    by one and the same value. *)
Theorem preprocess_demographics_imputes_income :
  forall csv out,
    preprocess_demographics csv = Some out ->
    exists m,
      Forall2
        (fun raw clean =>
           imputed_with m (d_avg_monthly_income raw)
             (d_avg_monthly_income clean))
        csv out /\
      Forall (fun clean => d_avg_monthly_income clean <> None) out.
Proof.
  intros csv out H. unfold preprocess_demographics in H.
  destruct (income_mean csv) as [m|] eqn:Em; [|discriminate].
  injection H as <-. exists m. split.
  - apply Forall2_map_self. intros r _.
    cbn [clean_demo_row d_avg_monthly_income]. apply fillna_imputed.
  - apply Forall_forall. intros r Hr. apply in_map_iff in Hr.
    destruct Hr as (r0 & <- & _). cbn [clean_demo_row d_avg_monthly_income].
    destruct (d_avg_monthly_income r0); discriminate.
Qed.

Lemma preprocess_demographics_imputes_income_witness :
  exists out m,
    preprocess_demographics [scenario_demo; demo_missing] = Some out /\
    Forall2
      (fun raw clean =>
         imputed_with m (d_avg_monthly_income raw)
           (d_avg_monthly_income clean))
      [scenario_demo; demo_missing] out /\
    Forall (fun clean => d_avg_monthly_income clean <> None) out.
Proof.
  destruct (preprocess_demographics_imputes_income
              [scenario_demo; demo_missing] _ eq_refl)
    as (m & HF & Hn).
  eexists. exists m. split; [reflexivity|]. split; [exact HF|exact Hn].
Defined.

(** ** The cleaners applied twice, and the cast of [drop_off] *)

Lemma wrap32_range (x : Z) : - 2 ^ 31 <= Spark.wrap32 x < 2 ^ 31.
Proof.
  unfold Spark.wrap32.
  pose proof (Z.mod_pos_bound (x + 2 ^ 31) (2 ^ 32) eq_refl). lia.
Qed.

Lemma wrap32_small (x : Z) :
  - 2 ^ 31 <= x < 2 ^ 31 -> Spark.wrap32 x = x.
Proof.
  intros H. unfold Spark.wrap32. rewrite Z.mod_small; lia.
Qed.

Lemma wrap32_congruent (x : Z) : (Spark.wrap32 x - x) mod 2 ^ 32 = 0.
Proof.
  unfold Spark.wrap32.
  pose proof (Z.div_mod (x + 2 ^ 31) (2 ^ 32)) as H.
  set (q := (x + 2 ^ 31) / 2 ^ 32) in *.
  set (r := (x + 2 ^ 31) mod 2 ^ 32) in *.
  replace (r - 2 ^ 31 - x) with (- q * 2 ^ 32) by lia.
  apply Z.mod_mul. lia.
Qed.

Lemma wrap32_idempotent (x : Z) :
  Spark.wrap32 (Spark.wrap32 x) = Spark.wrap32 x.
Proof. apply wrap32_small, wrap32_range. Qed.

Lemma fillna_idempotent {A : Type} (d : A) (c : option A) :
  Spark.fillna d (Spark.fillna d c) = Spark.fillna d c.
Proof. now destruct c. Qed.

(** X4. After the visits cleaner, [drop_off] is never null and is a 32-bit
    integer: 0 for a missing value and the raw value when that is a 32-bit
    integer.  Where the column is integral (all its values fit in 64 bits)
    the cleaned value is congruent to the raw value modulo 2^32. *)
Theorem preprocess_visits_drop_off_is_int :
  forall csv,
    Forall2 drop_off_cast csv (preprocess_visits csv) /\
    (integral_drop_off csv ->
     Forall2 drop_off_wraps csv (preprocess_visits csv)).
Proof.
  intros csv. unfold preprocess_visits. rewrite map_map. split.
  - apply Forall2_map_self. intros r _. unfold drop_off_cast.
    cbn [cast_drop_off fillna_visits v_drop_off].
    destruct (v_drop_off r) as [x|];
      cbn [Spark.fillna Spark.cast_int option_map].
    + exists (Spark.wrap32 x). split; [reflexivity|].
      split; [apply wrap32_range|]. split; [discriminate|].
      intros y Hy Hr. injection Hy as <-. now apply wrap32_small.
    + exists 0. split; [reflexivity|].
      split; [unfold int_range; lia|]. split; [reflexivity|].
      intros y Hy. discriminate.
  - intros _. apply Forall2_map_self. intros r _. unfold drop_off_wraps.
    cbn [cast_drop_off fillna_visits v_drop_off].
    intros x d Hx Hd. rewrite Hx in Hd.
    cbn [Spark.fillna Spark.cast_int option_map] in Hd.
    injection Hd as <-. apply wrap32_congruent.
Qed.

Lemma preprocess_visits_drop_off_is_int_witness :
  integral_drop_off [scenario_visit; visit_with_drop_off (Some 4294967297)] /\
  Forall2 drop_off_wraps
    [scenario_visit; visit_with_drop_off (Some 4294967297)]
    (preprocess_visits
       [scenario_visit; visit_with_drop_off (Some 4294967297)]).
Proof.
  assert (H : integral_drop_off
                [scenario_visit; visit_with_drop_off (Some 4294967297)]).
  { constructor; [intros x Hx; discriminate|].
    constructor; [|constructor].
    intros x Hx. injection Hx as <-. unfold long_range. lia. }
  split; [exact H|].
  exact (proj2 (preprocess_visits_drop_off_is_int _) H).
Defined.

(** X5. The visits cleaner is idempotent: cleaning a cleaned table changes
    nothing. *)
Theorem preprocess_visits_idempotent :
  forall csv,
    preprocess_visits (preprocess_visits csv) = preprocess_visits csv.
Proof.
  intros csv. unfold preprocess_visits. rewrite !map_map.
  apply map_ext. intros r. unfold cast_drop_off, fillna_visits. cbn.
  rewrite !fillna_idempotent. f_equal.
  destruct (v_drop_off r) as [x|]; cbn; [|reflexivity].
  now rewrite wrap32_idempotent.
Qed.

Lemma standardize_gender_idempotent (g : option string) :
  standardize_gender
    (Spark.fillna categorical_demo_fill (standardize_gender g))
  = standardize_gender g.
Proof.
  unfold standardize_gender.
  destruct (Spark.holds (Spark.isin g ["M"; "Male"])); [reflexivity|].
  destruct (Spark.holds (Spark.isin g ["F"; "Female"])); reflexivity.
Qed.

Lemma cap_chronic_conditions_idempotent (c : option Z) :
  cap_chronic_conditions (cap_chronic_conditions c)
  = cap_chronic_conditions c.
Proof.
  unfold cap_chronic_conditions, Spark.gt, Spark.holds.
  destruct c as [x|]; [|reflexivity].
  destruct (5 <? x) eqn:E; [reflexivity|]. now rewrite E.
Qed.

Lemma clean_demo_row_fixpoint (m m' : Q) (r : demo_row) :
  clean_demo_row m' (clean_demo_row m r) = clean_demo_row m r.
Proof.
  unfold clean_demo_row. cbn.
  rewrite !fillna_idempotent, standardize_gender_idempotent,
    cap_chronic_conditions_idempotent.
  f_equal. now destruct (d_avg_monthly_income r).
Qed.

Lemma income_mean_none (csv : list demo_row) :
  income_mean csv = None <-> incomes csv = [].
Proof.
  unfold income_mean. fold (incomes csv).
  destruct (incomes csv); split; intros H; try reflexivity; discriminate.
Qed.

(** X6. The demographics cleaner is idempotent: where it returns a table,
    cleaning that table again returns it unchanged (the second mean has no
    missing income left to fill). *)
Theorem preprocess_demographics_idempotent :
  forall csv out,
    preprocess_demographics csv = Some out ->
    preprocess_demographics out = Some out.
Proof.
  intros csv out H. unfold preprocess_demographics in H.
  destruct (income_mean csv) as [m|] eqn:Em; [|discriminate].
  injection H as <-. unfold preprocess_demographics.
  destruct (income_mean (map (clean_demo_row m) csv)) as [m'|] eqn:Em'.
  - f_equal. rewrite map_map. apply map_ext. intros r.
    apply clean_demo_row_fixpoint.
  - exfalso. apply income_mean_none in Em'.
    destruct csv as [|a csv]; [discriminate|].
    unfold incomes in Em'. cbn in Em'.
    destruct (d_avg_monthly_income a); discriminate.
Qed.

Lemma preprocess_demographics_idempotent_witness :
  exists out,
    preprocess_demographics [scenario_demo; demo_missing] = Some out /\
    preprocess_demographics out = Some out.
Proof.
  eexists. split; [reflexivity|].
  apply (preprocess_demographics_idempotent [scenario_demo; demo_missing]).
  reflexivity.
Defined.

(** ** The cells in sequence *)



(** ** The aggregated log features, group by group *)

Lemma filter_map_comm {A B : Type} (f : B -> bool) (g : A -> B)
    (l : list A) :
  filter f (map g l) = map g (filter (fun x => f (g x)) l).
Proof.
  induction l as [|a l IH]; simpl; [reflexivity|].
  destruct (f (g a)); simpl; now rewrite IH.
Qed.

(** [dropDuplicates] keeps a row of every key. *)
Lemma dropDuplicates_complete {A : Type} (key : A -> option Z)
    (rows : list A) (r : A) :
  In r rows ->
  exists r', In r' (Spark.dropDuplicates key rows) /\ key r' = key r.
Proof.
  induction rows as [|a rows IH]; simpl; [tauto|].
  intros [->|H].
  - exists r. split; [now left|reflexivity].
  - destruct (IH H) as (r' & Hin & Hk).
    destruct (Spark.key_same (key a) (key r')) eqn:E.
    + exists a. split; [now left|].
      apply key_same_eq in E. congruence.
    + exists r'. split; [|exact Hk].
      right. apply filter_In. split; [exact Hin|]. now rewrite E.
Qed.

Lemma filter_distinct_keys (ks : list (option Z)) (k : option Z) :
  In k ks ->
  filter (fun k' => Spark.key_same k k') (Spark.distinct_keys ks) = [k].
Proof.
  intros H. unfold Spark.distinct_keys.
  pose proof (dropDuplicates_unique (fun k => k) ks k) as Hu.
  destruct (dropDuplicates_complete (fun k => k) ks k H) as (k' & Hin & Hk).
  cbv beta in Hk. subst k'.
  assert (Hf : In k (filter (fun k' => Spark.key_same k k')
                       (Spark.dropDuplicates (fun k => k) ks))).
  { apply filter_In. split; [exact Hin|]. now apply key_same_eq. }
  destruct (filter (fun k' => Spark.key_same k k')
              (Spark.dropDuplicates (fun k => k) ks)) as [|x [|y l]];
    simpl in *; try lia; try tauto.
  destruct Hf as [->|[]]. reflexivity.
Qed.

(** With at most one right row per key, a left join attaches to every left
    row its matching right row. *)
Lemma left_join_unique {A B C : Type} (ka : A -> option Z)
    (kb : B -> option Z) (mk : A -> option B -> C) (l : list A)
    (r : list B) :
  (forall k,
      (List.length (filter (fun b => Spark.key_match k (kb b)) r) <= 1)%nat) ->
  Spark.left_join ka kb mk l r =
  map (fun a => mk a (matching kb (ka a) r)) l.
Proof.
  intros Hu. unfold Spark.left_join, matching.
  induction l as [|a l IH]; [reflexivity|].
  cbn [flat_map]. rewrite IH. cbn [map]. specialize (Hu (ka a)).
  destruct (filter (fun b => Spark.key_match (ka a) (kb b)) r)
    as [|b [|b' ms]]; simpl in *; try lia; reflexivity.
Qed.

Lemma df_log_features_groups (df_logs : list log_event) :
  df_log_features df_logs =
  map (features_of_group df_logs) (group_keys df_logs).
Proof.
  unfold df_log_features.
  rewrite left_join_unique by apply latest_department_unique.
  unfold log_counts_agg. rewrite !map_map.
  apply map_ext. intros k. reflexivity.
Qed.

Lemma group_rows_events_of (p : Z) (df_logs : list log_event) :
  group_rows (Some p) df_logs = events_of p df_logs.
Proof.
  unfold group_rows, events_of. apply filter_ext.
  intros e. symmetry. apply key_match_same.
Qed.

Lemma df_log_features_of_patient (df_logs : list log_event) (p : Z) :
  In (Some p) (map l_patient_id df_logs) ->
  filter (fun f => Spark.key_match (Some p) (lf_patient_id f))
    (df_log_features df_logs)
  = [features_of_group df_logs (Some p)].
Proof.
  intros H. rewrite df_log_features_groups, filter_map_comm.
  cbn [features_of_group fillna_log_features lf_patient_id].
  rewrite (filter_ext _ (fun k => Spark.key_same (Some p) k))
    by (intros k; apply key_match_same).
  unfold group_keys. now rewrite filter_distinct_keys.
Qed.

Lemma In_events_of (p : Z) (df_logs : list log_event) :
  events_of p df_logs <> [] <-> In (Some p) (map l_patient_id df_logs).
Proof.
  unfold events_of. split.
  - intros H.
    destruct (filter (fun e => Spark.key_match (Some p) (l_patient_id e))
                df_logs) as [|e l] eqn:E; [congruence|].
    assert (He : In e (e :: l)) by now left.
    rewrite <- E in He. apply filter_In in He. destruct He as [He Hk].
    apply key_match_eq in Hk. rewrite <- Hk. now apply in_map.
  - intros H Hnil. apply in_map_iff in H. destruct H as (e & He & Hin).
    assert (Hf : In e (filter
                         (fun e => Spark.key_match (Some p) (l_patient_id e))
                         df_logs)).
    { apply filter_In. split; [exact Hin|]. now apply key_match_eq. }
    rewrite Hnil in Hf. destruct Hf.
Qed.

(** X8. A patient with at least one event has exactly one row in the
    aggregated log features; its [log_count] is the number of the patient's
    events, its [critical_logs] the number of those whose [log_type] is
    "critical", and its [unique_events] the number of distinct non-null
    [event] values among them. *)
Theorem df_log_features_row_of_patient :
  forall df_logs p,
    events_of p df_logs <> [] ->
    exists f,
      filter (fun f => Spark.key_match (Some p) (lf_patient_id f))
        (df_log_features df_logs) = [f] /\
      lf_log_count f = Some (count_star (events_of p df_logs)) /\
      lf_critical_logs f = Some (count_critical (events_of p df_logs)) /\
      lf_unique_events f =
      Some (countDistinct_event (events_of p df_logs)).
Proof.
  intros df_logs p H. apply In_events_of in H.
  exists (features_of_group df_logs (Some p)).
  split; [now apply df_log_features_of_patient|].
  cbn. rewrite group_rows_events_of. repeat split.
Qed.

Lemma df_log_features_row_of_patient_witness :
  exists f,
    filter (fun f => Spark.key_match (Some 1) (lf_patient_id f))
      (df_log_features mixed_logs) = [f] /\
    lf_log_count f = Some (count_star (events_of 1 mixed_logs)) /\
    lf_critical_logs f = Some (count_critical (events_of 1 mixed_logs)) /\
    lf_unique_events f = Some (countDistinct_event (events_of 1 mixed_logs)).
Proof.
  apply (df_log_features_row_of_patient mixed_logs 1).
  discriminate.
Defined.

Lemma non_null_length {A : Type} (col : list (option A)) :
  (List.length (non_null col) <= List.length col)%nat.
Proof.
  induction col as [|[x|] col IH]; simpl; lia.
Qed.

Lemma nodup_length_le (l : list string) :
  (List.length (nodup string_dec l) <= List.length l)%nat.
Proof.
  induction l as [|a l IH]; simpl; [lia|].
  destruct (in_dec string_dec a l); simpl; lia.
Qed.

Lemma filter_length_bound {A : Type} (f : A -> bool) (l : list A) :
  (List.length (filter f l) <= List.length l)%nat.
Proof.
  induction l as [|a l IH]; simpl; [lia|].
  destruct (f a); simpl; lia.
Qed.

Lemma group_counts_bounded (rows : list log_event) :
  0 <= count_critical rows <= count_star rows /\
  0 <= countDistinct_event rows <= count_star rows.
Proof.
  unfold count_critical, countDistinct_event, count_star.
  pose proof (filter_length_bound
                (fun e => Spark.holds (Spark.eq_str (l_log_type e) "critical"))
                rows).
  pose proof (nodup_length_le (non_null (map l_event rows))).
  pose proof (non_null_length (map l_event rows)).
  rewrite length_map in *. lia.
Qed.

Lemma features_of_group_bounded (df_logs : list log_event) (k : option Z) :
  In k (group_keys df_logs) ->
  let f := features_of_group df_logs k in
  counts_bounded (lf_log_count f) (lf_critical_logs f) (lf_unique_events f)
    (lf_most_recent_department f) 1.
Proof.
  intros Hk. cbv zeta. unfold counts_bounded.
  cbn [features_of_group fillna_log_features lf_log_count lf_critical_logs
       lf_unique_events lf_most_recent_department Spark.fillna].
  destruct (group_counts_bounded (group_rows k df_logs)) as [Hc Hu].
  assert (Hn : 1 <= count_star (group_rows k df_logs)).
  { unfold group_keys, Spark.distinct_keys in Hk.
    apply dropDuplicates_In in Hk. apply in_map_iff in Hk.
    destruct Hk as (e & He & Hin).
    assert (Hg : In e (group_rows k df_logs)).
    { apply filter_In. split; [exact Hin|]. apply key_same_eq. now symmetry. }
    unfold count_star. destruct (group_rows k df_logs); [destruct Hg|].
    simpl List.length. lia. }
  destruct (match matching ld_patient_id k (latest_department df_logs) with
            | Some d => ld_most_recent_department d
            | None => None
            end);
    (eexists _, _, _, _; split; [reflexivity|]; split; [reflexivity|];
     split; [reflexivity|]; split; [reflexivity|now repeat split]).
Qed.

(** X9. Every row of the aggregated log features has all four derived
    columns present, a [log_count] of at least 1, and [critical_logs] and
    [unique_events] between 0 and [log_count]. *)
Theorem df_log_features_counts_bounded :
  forall df_logs f,
    In f (df_log_features df_logs) ->
    counts_bounded (lf_log_count f) (lf_critical_logs f) (lf_unique_events f)
      (lf_most_recent_department f) 1.
Proof.
  intros df_logs f H. rewrite df_log_features_groups in H.
  apply in_map_iff in H. destruct H as (k & <- & Hk).
  now apply features_of_group_bounded.
Qed.

Lemma df_log_features_counts_bounded_witness :
  Forall
    (fun f =>
       counts_bounded (lf_log_count f) (lf_critical_logs f)
         (lf_unique_events f) (lf_most_recent_department f) 1)
    (df_log_features mixed_logs).
Proof.
  apply Forall_forall. intros f Hf.
  exact (df_log_features_counts_bounded mixed_logs f Hf).
Defined.

(** ** The integrated table, row by row *)

Lemma df_final_rows (df_demo : list demo_row) (df_visits : list visit_row)
    (df_logs : list log_event) :
  df_final df_demo df_visits df_logs =
  map
    (fun a =>
       fillna_final
         (attach_features a
            (matching lf_patient_id (p_patient_id a)
               (df_log_features df_logs))))
    (df_patient df_demo df_visits).
Proof.
  unfold df_final.
  rewrite left_join_unique by apply df_log_features_unique.
  now rewrite map_map.
Qed.

Lemma inner_join_In {A B C : Type} (ka : A -> option Z) (kb : B -> option Z)
    (mk : A -> B -> C) (l : list A) (r : list B) (c : C) :
  In c (Spark.inner_join ka kb mk l r) <->
  exists a b, In a l /\ In b r /\
    Spark.key_match (ka a) (kb b) = true /\ c = mk a b.
Proof.
  unfold Spark.inner_join. rewrite in_flat_map. split.
  - intros (a & Ha & Hc). apply in_map_iff in Hc.
    destruct Hc as (b & <- & Hb). apply filter_In in Hb.
    exists a, b. tauto.
  - intros (a & b & Ha & Hb & Hk & ->). exists a. split; [exact Ha|].
    apply in_map. apply filter_In. tauto.
Qed.

Lemma key_match_both (a b : option Z) :
  Spark.key_match a b = true <-> exists p, a = Some p /\ b = Some p.
Proof.
  destruct a as [x|], b as [y|]; simpl; split;
    try discriminate; try (intros (p & H1 & H2); discriminate).
  - intros H. apply Z.eqb_eq in H. subst. now exists y.
  - intros (p & H1 & H2). injection H1 as ->. injection H2 as ->.
    apply Z.eqb_refl.
Qed.

(** X10. The left join with the log features keeps the rows of the
    demographics-visits join, each once: dropping the four log columns from
    the integrated table gives the rows of that join, whatever their order,
    so the two tables have the same number of rows. *)
Theorem df_final_extends_df_patient :
  forall df_demo df_visits df_logs,
    Permutation
      (map (fun r => mk_patient (f_demo r) (f_visit r))
         (df_final df_demo df_visits df_logs))
      (df_patient df_demo df_visits) /\
    List.length (df_final df_demo df_visits df_logs)
    = List.length (df_patient df_demo df_visits).
Proof.
  intros df_demo df_visits df_logs. rewrite df_final_rows. split.
  - rewrite map_map. rewrite <- (map_id (df_patient df_demo df_visits)) at 2.
    erewrite map_ext; [reflexivity|]. intros [d v]. reflexivity.
  - apply length_map.
Qed.

(** X11. Every row of the integrated table has a non-null [patient_id]; its
    demographics columns are a row of the demographics table and its visits
    columns a row of the visits table with that same [patient_id].  Rows
    with a null key never reach the table. *)
Theorem df_final_rows_are_matched_pairs :
  forall df_demo df_visits df_logs r,
    In r (df_final df_demo df_visits df_logs) ->
    exists p,
      f_patient_id r = Some p /\
      v_patient_id (f_visit r) = Some p /\
      In (f_demo r) df_demo /\
      In (f_visit r) df_visits.
Proof.
  intros df_demo df_visits df_logs r H. rewrite df_final_rows in H.
  apply in_map_iff in H. destruct H as (a & <- & Ha).
  unfold df_patient in Ha. apply inner_join_In in Ha.
  destruct Ha as (d & v & Hd & Hv & Hk & ->).
  apply key_match_both in Hk. destruct Hk as (p & Hp1 & Hp2).
  exists p. cbn. tauto.
Qed.

Lemma df_final_rows_are_matched_pairs_witness :
  Forall
    (fun r =>
       exists p,
         f_patient_id r = Some p /\
         v_patient_id (f_visit r) = Some p /\
         In (f_demo r) two_demographics /\
         In (f_visit r) three_visits)
    (df_final two_demographics three_visits mixed_logs).
Proof.
  apply Forall_forall. intros r Hr.
  exact (df_final_rows_are_matched_pairs _ _ _ r Hr).
Defined.

(** X12. The integrated table has, for every patient, as many rows as the
    product of the patient's rows in the demographics table and in the
    visits table: none for a patient missing from either table, and several
    for a patient with several visits. *)
Theorem df_final_rows_per_patient :
  forall df_demo df_visits df_logs p,
    List.length (rows_of p (df_final df_demo df_visits df_logs)) =
    (List.length
       (filter (fun d => Spark.key_match (Some p) (d_patient_id d)) df_demo) *
     List.length
       (filter (fun v => Spark.key_match (Some p) (v_patient_id v))
          df_visits))%nat.
Proof.
  intros. apply df_final_count.
Qed.

(** X13. An integrated row of a patient that has events in the logs carries
    the patient's aggregates: [log_count] is the number of the patient's
    events, [critical_logs] the number of the critical ones, and
    [unique_events] the number of distinct events. *)
Theorem df_final_log_counts :
  forall df_demo df_visits df_logs p r,
    events_of p df_logs <> [] ->
    In r (df_final df_demo df_visits df_logs) ->
    f_patient_id r = Some p ->
    f_log_count r = Some (count_star (events_of p df_logs)) /\
    f_critical_logs r = Some (count_critical (events_of p df_logs)) /\
    f_unique_events r = Some (countDistinct_event (events_of p df_logs)).
Proof.
  intros df_demo df_visits df_logs p r He Hr Hp.
  rewrite df_final_rows in Hr.
  apply in_map_iff in Hr. destruct Hr as (a & <- & _).
  change (p_patient_id a = Some p) in Hp. rewrite Hp.
  unfold matching.
  rewrite df_log_features_of_patient by now apply In_events_of.
  cbn. rewrite group_rows_events_of. repeat split.
Qed.

Lemma df_final_log_counts_witness :
  Forall
    (fun r =>
       f_patient_id r = Some 1 ->
       f_log_count r = Some (count_star (events_of 1 mixed_logs)) /\
       f_critical_logs r = Some (count_critical (events_of 1 mixed_logs)) /\
       f_unique_events r =
       Some (countDistinct_event (events_of 1 mixed_logs)))
    (df_final two_demographics three_visits mixed_logs).
Proof.
  apply Forall_forall. intros r Hr.
  apply (df_final_log_counts two_demographics three_visits mixed_logs 1 r).
  - discriminate.
  - exact Hr.
Defined.

Lemma hd_error_In {A : Type} (l : list A) (x : A) :
  hd_error l = Some x -> In x l.
Proof.
  destruct l; simpl; [discriminate|]. intros H. injection H as ->. now left.
Qed.

(** X14. In every row of the integrated table the four log-derived columns
    are present (never null), the counts are not negative, and
    [critical_logs] and [unique_events] do not exceed [log_count]. *)
Theorem df_final_counts_bounded :
  forall df_demo df_visits df_logs r,
    In r (df_final df_demo df_visits df_logs) ->
    counts_bounded (f_log_count r) (f_critical_logs r) (f_unique_events r)
      (f_most_recent_department r) 0.
Proof.
  intros df_demo df_visits df_logs r Hr. rewrite df_final_rows in Hr.
  apply in_map_iff in Hr. destruct Hr as (a & <- & _).
  destruct (matching lf_patient_id (p_patient_id a)
              (df_log_features df_logs)) as [f|] eqn:E.
  - unfold matching in E. apply hd_error_In in E.
    apply filter_In in E. destruct E as [Hf _].
    rewrite df_log_features_groups in Hf.
    apply in_map_iff in Hf. destruct Hf as (k & <- & Hk).
    destruct (features_of_group_bounded df_logs k Hk)
      as (n & c & u & d & Hn & Hc & Hu & Hd & Hb).
    cbn [attach_features fillna_final f_log_count f_critical_logs
         f_unique_events f_most_recent_department].
    rewrite Hn, Hc, Hu, Hd. exists n, c, u, d.
    repeat split; try reflexivity; lia.
  - exists 0, 0, 0, "Unknown". cbn. repeat split; lia.
Qed.

Lemma df_final_counts_bounded_witness :
  Forall
    (fun r =>
       counts_bounded (f_log_count r) (f_critical_logs r)
         (f_unique_events r) (f_most_recent_department r) 0)
    (df_final two_demographics three_visits mixed_logs).
Proof.
  apply Forall_forall. intros r Hr.
  exact (df_final_counts_bounded _ _ _ r Hr).
Defined.

(** ** The most recent department *)

Lemma fold_max_spec (x : Z) (xs : list Z) :
  In (fold_right Z.max x xs) (x :: xs) /\
  forall y, In y (x :: xs) -> y <= fold_right Z.max x xs.
Proof.
  induction xs as [|a xs [IHin IHle]]; cbn [fold_right].
  - split; [now left|]. intros y [<-|[]]. lia.
  - split.
    + destruct (Z.max_spec a (fold_right Z.max x xs)) as [[_ ->]|[_ ->]].
      * destruct IHin as [H|H]; [now left|right; now right].
      * right. now left.
    + intros y [<-|[<-|Hy]].
      * specialize (IHle x (or_introl eq_refl)). lia.
      * lia.
      * specialize (IHle y (or_intror Hy)). lia.
Qed.

Lemma spark_max_spec (col : list (option Z)) (t : Z) :
  spark_max col = Some t ->
  In (Some t) col /\ forall t', In (Some t') col -> t' <= t.
Proof.
  unfold spark_max. destruct (non_null col) as [|x xs] eqn:E; [discriminate|].
  intros H. injection H as <-.
  destruct (fold_max_spec x xs) as [Hin Hle]. rewrite <- E in Hin, Hle.
  split.
  - now apply non_null_In.
  - intros t' Ht'. apply Hle. now apply non_null_In.
Qed.

Lemma spark_max_some (col : list (option Z)) (t : Z) :
  In (Some t) col -> exists m, spark_max col = Some m.
Proof.
  intros H. apply non_null_In in H. unfold spark_max.
  destruct (non_null col); [destruct H|]. eexists. reflexivity.
Qed.

Lemma eq_time_holds (a b : option Z) :
  Spark.holds (eq_time a b) = true <-> exists t, a = Some t /\ b = Some t.
Proof.
  destruct a as [x|], b as [y|]; simpl; split;
    try discriminate; try (intros (t & H1 & H2); discriminate).
  - destruct (x =? y) eqn:E; [|discriminate]. intros _.
    apply Z.eqb_eq in E. subst. now exists y.
  - intros (t & H1 & H2). injection H1 as ->. injection H2 as ->.
    now rewrite Z.eqb_refl.
Qed.

Lemma latest_department_candidates (df_logs : list log_event) :
  latest_department df_logs =
  Spark.dropDuplicates ld_patient_id (latest_candidates df_logs).
Proof. reflexivity. Qed.

(** A candidate is the department of an event that carries the greatest
    timestamp of its patient, and every such event gives a candidate. *)
Lemma latest_candidates_In (df_logs : list log_event) (d : latest_dept) :
  In d (latest_candidates df_logs) <->
  exists e p t,
    In e df_logs /\ l_patient_id e = Some p /\ l_timestamp e = Some t /\
    spark_max (map l_timestamp (events_of p df_logs)) = Some t /\
    d = {| ld_patient_id := Some p;
           ld_most_recent_department := l_department e |}.
Proof.
  unfold latest_candidates. rewrite in_map_iff. split.
  - intros ([e ll] & <- & H). apply filter_In in H. destruct H as [Hj Ht].
    apply inner_join_In in Hj.
    destruct Hj as (e' & ll' & He & Hll & Hk & Heq).
    injection Heq as -> ->. cbn [fst snd] in *.
    apply key_match_both in Hk. destruct Hk as (p & Hp & Hllp).
    apply eq_time_holds in Ht. destruct Ht as (t & Ht & Hmax).
    unfold latest_logs in Hll. apply in_map_iff in Hll.
    destruct Hll as (k & <- & _). cbn in Hllp, Hmax. subst k.
    rewrite group_rows_events_of in Hmax.
    exists e', p, t. rewrite Hp. tauto.
  - intros (e & p & t & He & Hp & Ht & Hmax & ->).
    exists (e, {| ll_patient_id := Some p;
                  ll_latest_log_time :=
                    spark_max (map l_timestamp (group_rows (Some p) df_logs))
               |}).
    cbn [fst snd ll_latest_log_time]. split; [now rewrite Hp|].
    apply filter_In. cbn [fst snd ll_latest_log_time]. split.
    + apply inner_join_In. eexists _, _.
      split; [exact He|]. split; [|split; [|reflexivity]].
      * unfold latest_logs. apply in_map_iff. exists (Some p).
        split; [reflexivity|].
        unfold group_keys, Spark.distinct_keys.
        assert (Hin : In (Some p) (map l_patient_id df_logs)).
        { rewrite <- Hp. now apply in_map. }
        destruct (dropDuplicates_complete (fun k => k) _ _ Hin)
          as (k & Hk & Hkk).
        cbv beta in Hkk. now subst k.
      * cbn. rewrite Hp. apply key_match_both. now exists p.
    + apply eq_time_holds. exists t. split; [exact Ht|].
      now rewrite group_rows_events_of.
Qed.

Lemma events_of_In (p : Z) (df_logs : list log_event) (e : log_event) :
  In e (events_of p df_logs) <-> In e df_logs /\ l_patient_id e = Some p.
Proof.
  unfold events_of. rewrite filter_In, key_match_eq. tauto.
Qed.

(** X15. The [most_recent_department] of a patient's feature row is the
    department of one of the patient's events with the greatest timestamp
    ("Unknown" when that event has no department); when none of the patient's
    events has a timestamp, it is "Unknown". *)
Theorem df_log_features_most_recent_department :
  forall df_logs f p,
    In f (df_log_features df_logs) ->
    lf_patient_id f = Some p ->
    ((forall e, In e (events_of p df_logs) -> l_timestamp e = None) ->
     lf_most_recent_department f = Some "Unknown") /\
    ((exists e, In e (events_of p df_logs) /\ l_timestamp e <> None) ->
     exists e t,
       latest_event p df_logs e t /\
       lf_most_recent_department f =
       Spark.fillna "Unknown" (l_department e)).
Proof.
  intros df_logs f p Hf Hp.
  rewrite df_log_features_groups in Hf.
  apply in_map_iff in Hf. destruct Hf as (k & <- & _).
  cbn [features_of_group fillna_log_features lf_patient_id] in Hp. subst k.
  cbn [features_of_group fillna_log_features lf_most_recent_department].
  unfold matching.
  set (ms := filter (fun b => Spark.key_match (Some p) (ld_patient_id b))
               (latest_department df_logs)).
  assert (Hms : forall d, In d ms ->
             exists e t, latest_event p df_logs e t /\
                         ld_most_recent_department d = l_department e).
  { intros d Hd. apply filter_In in Hd. destruct Hd as [Hd Hk].
    apply key_match_eq in Hk.
    rewrite latest_department_candidates in Hd.
    apply dropDuplicates_In in Hd. apply latest_candidates_In in Hd.
    destruct Hd as (e & p' & t & He & Hp' & Ht & Hmax & ->).
    cbn in Hk. injection Hk as ->.
    exists e, t. split; [|reflexivity].
    split; [now apply events_of_In|]. split; [exact Ht|].
    intros e' t' He' Ht'.
    apply (proj2 (spark_max_spec _ _ Hmax)).
    rewrite <- Ht'. now apply in_map. }
  split.
  - intros Hnone. destruct ms as [|d ms']; [reflexivity|].
    destruct (Hms d (or_introl eq_refl)) as (e & t & (He & Ht & _) & _).
    rewrite (Hnone e He) in Ht. discriminate.
  - intros (e0 & He0 & Ht0).
    destruct (l_timestamp e0) as [t0|] eqn:Et0; [clear Ht0|congruence].
    assert (Hsome : In (Some t0) (map l_timestamp (events_of p df_logs))).
    { rewrite <- Et0. now apply in_map. }
    destruct (spark_max_some _ _ Hsome) as (m & Hm).
    destruct (spark_max_spec _ _ Hm) as [Hin _].
    apply in_map_iff in Hin. destruct Hin as (e1 & Ht1 & He1).
    apply events_of_In in He1. destruct He1 as [He1 Hp1].
    assert (Hc : In {| ld_patient_id := Some p;
                       ld_most_recent_department := l_department e1 |}
                   (latest_candidates df_logs)).
    { apply latest_candidates_In. exists e1, p, m. tauto. }
    destruct (dropDuplicates_complete ld_patient_id _ _ Hc)
      as (d & Hd & Hk).
    rewrite <- latest_department_candidates in Hd. cbn in Hk.
    assert (Hdm : In d ms).
    { apply filter_In. split; [exact Hd|]. now apply key_match_eq. }
    destruct ms as [|d' ms']; [destruct Hdm|].
    destruct (Hms d' (or_introl eq_refl)) as (e & t & Hl & Hdep).
    exists e, t. split; [exact Hl|]. cbn [hd_error]. now rewrite Hdep.
Qed.

Lemma df_log_features_most_recent_department_witness :
  Forall
    (fun f =>
       lf_patient_id f = Some 1 ->
       exists e t,
         latest_event 1 mixed_logs e t /\
         lf_most_recent_department f =
         Spark.fillna "Unknown" (l_department e))
    (df_log_features mixed_logs).
Proof.
  apply Forall_forall. intros f Hf Hp.
  apply (proj2 (df_log_features_most_recent_department mixed_logs f 1 Hf Hp)).
  eexists. split; [left; reflexivity|]. discriminate.
Defined.

(** ** The string indexer *)

Lemma index_of_nth_error (s : string) (labels : list string) (i : nat) :
  index_of s labels = Some i -> nth_error labels i = Some s.
Proof.
  revert i. induction labels as [|l t IH]; intros i; simpl; [discriminate|].
  destruct (String.eqb_spec s l) as [->|Hne].
  - intros H. injection H as <-. reflexivity.
  - destruct (index_of s t) as [j|]; [|discriminate].
    intros H. injection H as <-. simpl. now apply IH.
Qed.

Lemma index_of_not_In (s : string) (labels : list string) :
  ~ In s labels -> index_of s labels = None.
Proof.
  induction labels as [|l t IH]; simpl; [reflexivity|].
  intros H. destruct (String.eqb_spec s l) as [->|Hne]; [tauto|].
  rewrite IH; [reflexivity|tauto].
Qed.

(** X16. The labels of a fitted indexer are exactly the non-null values of
    the column, each once, and indexing is inverted by reading the label at
    the index: a value of the column gets an index below the number of
    labels at which the labels hold that value, so two values with the same
    index are equal. *)
Theorem StringIndexer_labels_and_index :
  forall col,
    NoDup (StringIndexer_fit col) /\
    (forall s, In s (StringIndexer_fit col) <-> In (Some s) col) /\
    (forall s, In (Some s) col ->
       nth_error (StringIndexer_fit col)
         (StringIndexer_transform (StringIndexer_fit col) (Some s))
       = Some s) /\
    (forall s1 s2, In (Some s1) col -> In (Some s2) col ->
       StringIndexer_transform (StringIndexer_fit col) (Some s1) =
       StringIndexer_transform (StringIndexer_fit col) (Some s2) ->
       s1 = s2).
Proof.
  intros col.
  assert (Hnth : forall s, In (Some s) col ->
            nth_error (StringIndexer_fit col)
              (StringIndexer_transform (StringIndexer_fit col) (Some s))
            = Some s).
  { intros s Hs. apply StringIndexer_fit_In in Hs.
    destruct (index_of_In _ _ Hs) as (i & Hi & _).
    unfold StringIndexer_transform. rewrite Hi.
    now apply index_of_nth_error. }
  split; [|split; [|split]].
  - unfold StringIndexer_fit.
    apply (Permutation_NoDup (Permutation_sym (sort_by_perm _ _))).
    apply NoDup_nodup.
  - apply StringIndexer_fit_In.
  - exact Hnth.
  - intros s1 s2 H1 H2 E.
    pose proof (Hnth s1 H1) as N1. pose proof (Hnth s2 H2) as N2.
    rewrite E in N1. congruence.
Qed.

Lemma StringIndexer_labels_and_index_witness :
  nth_error (StringIndexer_fit days_column)
    (StringIndexer_transform (StringIndexer_fit days_column) (Some "Sunday"))
  = Some "Sunday".
Proof.
  apply (proj1 (proj2 (proj2 (StringIndexer_labels_and_index days_column)))).
  do 4 right. left. reflexivity.
Defined.

Lemma insert_by_HdRel {A : Type} (leb : A -> A -> bool) (a b : A)
    (l : list A) :
  leb b a = true ->
  HdRel (fun x y => leb x y = true) b l ->
  HdRel (fun x y => leb x y = true) b (insert_by leb a l).
Proof.
  intros Hba H. destruct l as [|c l]; simpl.
  - now constructor.
  - destruct (leb a c); constructor; [exact Hba|].
    now inversion H.
Qed.

Lemma insert_by_sorted {A : Type} (leb : A -> A -> bool) (a : A)
    (l : list A) :
  (forall x y, leb x y = true \/ leb y x = true) ->
  Sorted (fun x y => leb x y = true) l ->
  Sorted (fun x y => leb x y = true) (insert_by leb a l).
Proof.
  intros Htot H. induction H as [|b l Hs IH Hhd]; simpl.
  - repeat constructor.
  - destruct (leb a b) eqn:E.
    + constructor; [now constructor|now constructor].
    + constructor; [exact IH|].
      apply insert_by_HdRel; [|exact Hhd].
      destruct (Htot a b) as [H|H]; [congruence|exact H].
Qed.

Lemma sort_by_sorted {A : Type} (leb : A -> A -> bool) (l : list A) :
  (forall x y, leb x y = true \/ leb y x = true) ->
  Sorted (fun x y => leb x y = true) (sort_by leb l).
Proof.
  intros Htot. induction l as [|a l IH]; simpl; [constructor|].
  now apply insert_by_sorted.
Qed.

Lemma frequencyDesc_total (vals : list string) (a b : string) :
  frequencyDesc vals a b = true \/ frequencyDesc vals b a = true.
Proof.
  unfold frequencyDesc.
  destruct (Nat.lt_trichotomy (count_occ string_dec vals a)
              (count_occ string_dec vals b)) as [H|[H|H]].
  - right. apply orb_true_iff. left. now apply Nat.ltb_lt.
  - rewrite H, Nat.eqb_refl, Nat.ltb_irrefl. cbn.
    apply String.leb_total.
  - left. apply orb_true_iff. left. now apply Nat.ltb_lt.
Qed.

Lemma frequencyDesc_counts (vals : list string) (a b : string) :
  frequencyDesc vals a b = true ->
  (count_occ string_dec vals b <= count_occ string_dec vals a)%nat.
Proof.
  unfold frequencyDesc. intros H. apply orb_true_iff in H.
  destruct H as [H|H].
  - apply Nat.ltb_lt in H. lia.
  - apply andb_true_iff in H. destruct H as [H _].
    apply Nat.eqb_eq in H. lia.
Qed.

Lemma Sorted_weaken {A : Type} (R R' : A -> A -> Prop) (l : list A) :
  (forall x y, R x y -> R' x y) -> Sorted R l -> Sorted R' l.
Proof.
  intros HR H. induction H as [|a l Hs IH Hhd]; constructor; [exact IH|].
  destruct Hhd; constructor. now apply HR.
Qed.

Lemma StronglySorted_nth {A : Type} (R : A -> A -> Prop) (l : list A)
    (d : A) :
  StronglySorted R l ->
  forall i j, (i < j < List.length l)%nat -> R (nth i l d) (nth j l d).
Proof.
  intros H. induction H as [|a l Hs IH Hall]; intros i j Hij.
  - simpl in Hij. lia.
  - destruct j as [|j]; [lia|]. destruct i as [|i]; simpl.
    + rewrite Forall_forall in Hall. apply Hall. apply nth_In.
      simpl in Hij. lia.
    + apply IH. simpl in Hij. lia.
Qed.

Lemma StringIndexer_fit_sorted (col : list (option string)) :
  StronglySorted (fun a b => (frequency col b <= frequency col a)%nat)
    (StringIndexer_fit col).
Proof.
  apply Sorted_StronglySorted.
  - intros x y z Hxy Hyz. lia.
  - unfold StringIndexer_fit.
    apply (Sorted_weaken
             (fun a b => frequencyDesc (non_null col) a b = true)).
    + intros x y. apply frequencyDesc_counts.
    + apply sort_by_sorted. apply frequencyDesc_total.
Qed.

(** X17. The indexer numbers the labels by descending frequency: a label
    with a smaller index occurs at least as often in the column as one with
    a greater index, so index 0 is a most frequent value. *)
Theorem StringIndexer_orders_by_frequency :
  forall col i j,
    (i <= j < List.length (StringIndexer_fit col))%nat ->
    (frequency col (nth j (StringIndexer_fit col) "")
     <= frequency col (nth i (StringIndexer_fit col) ""))%nat.
Proof.
  intros col i j H.
  destruct (Nat.eq_dec i j) as [->|Hne]; [lia|].
  apply (StronglySorted_nth _ _ "" (StringIndexer_fit_sorted col)). lia.
Qed.

Lemma StringIndexer_orders_by_frequency_witness :
  (frequency days_column (nth 2 (StringIndexer_fit days_column) "")
   <= frequency days_column (nth 0 (StringIndexer_fit days_column) ""))%nat.
Proof.
  apply (StringIndexer_orders_by_frequency days_column 0 2).
  split; [apply Nat.leb_le|apply Nat.ltb_lt]; reflexivity.
Defined.

(** X18. The encoder's fit succeeds exactly when the column has a non-null
    value, and a fitted encoder never raises on an index the indexer
    produced: any value, seen or not, is encoded as a vector whose size is
    the number of labels; a null and a value that is not a label get the
    additional index, the number of labels, and the vector of zeros. *)
Theorem encoder_handles_every_value :
  forall col,
    (cardinality col = 0%nat ->
     OneHotEncoder_fit (StringIndexer_fit col) = None) /\
    ((1 <= cardinality col)%nat ->
     exists categorySize,
       OneHotEncoder_fit (StringIndexer_fit col) = Some categorySize /\
       forall v,
       exists vec,
         OneHotEncoder_transform categorySize
           (StringIndexer_transform (StringIndexer_fit col) v)
         = Some vec /\
         sv_size vec = cardinality col /\
         ((v = None \/ ~ In v col) ->
          StringIndexer_transform (StringIndexer_fit col) v
          = cardinality col /\
          numNonzeros vec = 0%nat)).
Proof.
  intros col. split.
  - intros H. rewrite <- StringIndexer_fit_length in H.
    apply OneHotEncoder_fit_labels.
    destruct (StringIndexer_fit col); [reflexivity|discriminate].
  - intros Hcard. exists (S (cardinality col)).
    split; [now apply OneHotEncoder_fit_cardinality|].
    intros v. rewrite <- StringIndexer_fit_length.
    set (labels := StringIndexer_fit col).
    assert (Hle : (StringIndexer_transform labels v
                   <= List.length labels)%nat).
    { unfold StringIndexer_transform. destruct v as [s|]; [|lia].
      destruct (index_of s labels) as [i|] eqn:E; [|lia].
      apply index_of_nth_error in E.
      apply Nat.lt_le_incl. apply nth_error_Some. congruence. }
    destruct (Nat.eq_dec (StringIndexer_transform labels v)
                (List.length labels)) as [E|Hne].
    + rewrite E, OneHotEncoder_transform_last. eexists.
      split; [reflexivity|]. split; [reflexivity|]. intros _.
      split; [reflexivity|apply zero_vector_nonzeros].
    + rewrite OneHotEncoder_transform_label by lia. eexists.
      split; [reflexivity|]. split; [reflexivity|].
      intros Hun. exfalso. apply Hne.
      unfold StringIndexer_transform. destruct v as [s|]; [|reflexivity].
      rewrite index_of_not_In; [reflexivity|].
      destruct Hun as [H|H]; [discriminate|].
      intros Hin. apply H. now apply StringIndexer_fit_In.
Qed.

Lemma encoder_handles_every_value_witness :
  OneHotEncoder_fit (StringIndexer_fit (column has_mobile_app_col no_apps))
  = None /\
  exists categorySize,
    OneHotEncoder_fit (StringIndexer_fit days_column) = Some categorySize /\
    exists vec,
      OneHotEncoder_transform categorySize
        (StringIndexer_transform (StringIndexer_fit days_column)
           (Some "Monday"))
      = Some vec /\
      sv_size vec = cardinality days_column.
Proof.
  split.
  - apply (proj1 (encoder_handles_every_value
                    (column has_mobile_app_col no_apps))).
    reflexivity.
  - destruct (proj2 (encoder_handles_every_value days_column))
      as (categorySize & Hfit & Hv).
    + apply Nat.leb_le. reflexivity.
    + exists categorySize. split; [exact Hfit|].
      destruct (Hv (Some "Monday")) as (vec & Ht & Hs & _).
      exists vec. split; [exact Ht|exact Hs].
Defined.

(** ** The selection of the feature columns *)

Lemma string_length_append (p s : string) :
  String.length (p ++ s) = (String.length p + String.length s)%nat.
Proof.
  induction p as [|a p IH]; simpl; [reflexivity|]. now rewrite IH.
Qed.

Lemma substring_all (s : string) : substring 0 (String.length s) s = s.
Proof.
  induction s as [|a s IH]; simpl; [reflexivity|]. now rewrite IH.
Qed.

Lemma substring_append_suffix (p s : string) :
  substring (String.length p) (String.length s) (p ++ s) = s.
Proof.
  induction p as [|a p IH]; simpl; [apply substring_all|exact IH].
Qed.

Lemma substring_split (s : string) (n : nat) :
  (n <= String.length s)%nat ->
  s = (substring 0 n s ++ substring n (String.length s - n) s)%string.
Proof.
  revert n. induction s as [|a s IH]; intros n Hn.
  - simpl in Hn. assert (n = O) by lia. subst. reflexivity.
  - destruct n as [|n].
    + cbn [substring append String.length Nat.sub].
      now rewrite substring_all.
    + cbn [substring append String.length Nat.sub]. f_equal.
      apply IH. simpl in Hn. lia.
Qed.

Lemma endswith_spec (s suffix : string) :
  endswith s suffix = true <-> exists p, s = (p ++ suffix)%string.
Proof.
  unfold endswith. rewrite andb_true_iff, Nat.leb_le, String.eqb_eq. split.
  - intros [Hle Hsub].
    exists (substring 0 (String.length s - String.length suffix) s).
    pose proof (substring_split s
                  (String.length s - String.length suffix)) as Hs.
    replace (String.length s - (String.length s - String.length suffix))%nat
      with (String.length suffix) in Hs by lia.
    rewrite Hsub in Hs. apply Hs. lia.
  - intros (p & ->). rewrite string_length_append. split; [lia|].
    replace (String.length p + String.length suffix - String.length suffix)%nat
      with (String.length p) by lia.
    apply substring_append_suffix.
Qed.

(** X19. The feature selection keeps, in order, exactly the columns whose
    name is some prefix followed by "_scaled" or by "_encoded"; a column of
    any other name, the label included, is never selected. *)
Theorem select_features_by_suffix :
  forall columns c,
    In c (select_features columns) <->
    In c columns /\
    exists p, c = (p ++ "_scaled")%string \/ c = (p ++ "_encoded")%string.
Proof.
  intros columns c. unfold select_features.
  rewrite filter_In, orb_true_iff, !endswith_spec. split.
  - intros [Hin [(p & Hp)|(p & Hp)]]; (split; [exact Hin|]); exists p; tauto.
  - intros [Hin (p & [Hp|Hp])]; (split; [exact Hin|]);
      [left|right]; now exists p.
Qed.

(** X20. The inputs of the clustering are the eleven scaled numeric columns
    followed by the eleven encoded categorical columns; the inputs of the
    classifiers are these followed by [patient_segment].  The label
    [drop_off] and the clustering's own [features] vector are not among
    them, and no column is listed twice. *)
Theorem ml_features_columns :
  clustering_features =
    (map (fun c => c ++ "_scaled")%string numerical_cols
       ++ map (fun c => fst c ++ "_encoded")%string categorical_cols)%list /\
  ml_features = (clustering_features ++ ["patient_segment"])%list /\
  ~ In "drop_off" ml_features /\
  ~ In "features" ml_features /\
  NoDup ml_features.
Proof.
  split; [vm_compute; reflexivity|].
  split; [vm_compute; reflexivity|].
  assert (Hn : NoDup ml_features).
  { apply (NoDup_count_occ string_dec). intros x.
    destruct (in_dec string_dec x ml_features) as [Hin|Hout].
    - vm_compute in Hin.
      repeat (destruct Hin as [<-|Hin]; [vm_compute; lia|]).
      destruct Hin.
    - apply (count_occ_not_In string_dec) in Hout. lia. }
  split; [|split; [|exact Hn]]; intros H; vm_compute in H;
    repeat (destruct H as [H|H]; [discriminate|]); exact H.
Qed.

(** ** More on sampling *)

Lemma sample_cell_In {row : Type} (lb ub : Q) (draw : nat -> Q) (i : nat)
    (rows : list row) (r : row) :
  In r (sample_cell lb ub draw i rows) -> In r rows.
Proof.
  revert i. induction rows as [|a rows IH]; intros i; simpl; [tauto|].
  destruct (in_cell lb ub (draw i)); simpl; intros H.
  - destruct H as [H|H]; [now left|right; now apply (IH (S i))].
  - right. now apply (IH (S i)).
Qed.

Lemma eq_int_holds (c : option Z) (k : Z) :
  Spark.holds (eq_int c k) = true <-> c = Some k.
Proof.
  destruct c as [x|]; simpl; [|split; discriminate].
  destruct (x =? k) eqn:E.
  - apply Z.eqb_eq in E. subst. tauto.
  - apply Z.eqb_neq in E. split; [discriminate|congruence].
Qed.

(** X21. Every row of the balancer's output is a row of its input whose
    [drop_off] is 0 or 1: a row with a null [drop_off], or with any other
    value, is dropped. *)
Theorem df_balanced_drops_unlabelled_rows :
  forall (row : Type) (drop_off : row -> option Z) (draw key : nat -> Q)
         (df_clustered : list row) (r : row),
    In r (df_balanced drop_off draw key df_clustered) ->
    In r df_clustered /\ (drop_off r = Some 0 \/ drop_off r = Some 1).
Proof.
  intros row drop_off draw key df_clustered r H.
  unfold df_balanced in H.
  apply (Permutation_in _ (orderBy_rand_perm key _)) in H.
  apply in_app_or in H. destruct H as [H|H].
  - unfold df_major_sampled, sample in H. apply sample_cell_In in H.
    unfold df_major in H. apply filter_In in H. destruct H as [Hin Hd].
    apply eq_int_holds in Hd. tauto.
  - unfold df_minor in H. apply filter_In in H. destruct H as [Hin Hd].
    apply eq_int_holds in Hd. tauto.
Qed.

Lemma df_balanced_drops_unlabelled_rows_witness :
  Forall
    (fun r => In r labelled_rows /\ (snd r = Some 0 \/ snd r = Some 1))
    (df_balanced snd example_draw example_draw labelled_rows).
Proof.
  apply Forall_forall. intros r Hr.
  exact (df_balanced_drops_unlabelled_rows _ snd _ _ _ r Hr).
Defined.

Lemma sample_cell_none {row : Type} (lb ub : Q) (draw : nat -> Q)
    (rows : list row) :
  (forall i, in_cell lb ub (draw i) = false) ->
  forall i, sample_cell lb ub draw i rows = [].
Proof.
  intros H. induction rows as [|a rows IH]; intros i; simpl; [reflexivity|].
  rewrite H. apply IH.
Qed.

Lemma sample_cell_all {row : Type} (lb ub : Q) (draw : nat -> Q)
    (rows : list row) :
  (forall i, in_cell lb ub (draw i) = true) ->
  forall i, sample_cell lb ub draw i rows = rows.
Proof.
  intros H. induction rows as [|a rows IH]; intros i; simpl; [reflexivity|].
  rewrite H. f_equal. apply IH.
Qed.

Lemma sample_cell_mono {row : Type} (lb ub lb' ub' : Q) (draw : nat -> Q)
    (rows : list row) :
  (forall i, in_cell lb ub (draw i) = true ->
             in_cell lb' ub' (draw i) = true) ->
  forall i,
    (List.length (sample_cell lb ub draw i rows)
     <= List.length (sample_cell lb' ub' draw i rows))%nat /\
    forall r, In r (sample_cell lb ub draw i rows) ->
              In r (sample_cell lb' ub' draw i rows).
Proof.
  intros H. induction rows as [|a rows IH]; intros i; simpl.
  - split; [lia|tauto].
  - destruct (IH (S i)) as [Hlen Hin].
    destruct (in_cell lb ub (draw i)) eqn:E.
    + rewrite (H i E). simpl. split; [lia|].
      intros r [Hr|Hr]; [now left|right; now apply Hin].
    + destruct (in_cell lb' ub' (draw i)); simpl.
      * split; [lia|]. intros r Hr. right. now apply Hin.
      * split; [exact Hlen|exact Hin].
Qed.

Lemma in_cell_true (lb ub x : Q) :
  in_cell lb ub x = true <-> (lb <= x)%Q /\ (x < ub)%Q.
Proof.
  unfold in_cell. rewrite andb_true_iff, negb_true_iff, Qle_bool_iff. split.
  - intros [H1 H2]. split; [exact H1|].
    apply Qnot_le_lt. intros H. apply Qle_bool_iff in H. congruence.
  - intros [H1 H2]. split; [exact H1|].
    destruct (Qle_bool ub x) eqn:E; [|reflexivity].
    apply Qle_bool_iff in E. exfalso. apply (Qlt_irrefl x).
    eapply Qlt_le_trans; eassumption.
Qed.

(** X22. The fraction of [sample], within the interval [[0, 1]] that Spark
    accepts: a fraction of 0 keeps no row whatever the draws; with draws in
    [[0, 1)] a fraction of 1 keeps every row; and of two fractions in the
    interval the greater keeps every row that the smaller keeps under the
    same draws. *)
Theorem sample_fraction :
  forall (row : Type) (f1 f2 : Q) (draw : nat -> Q) (rows : list row),
    ((f1 == 0)%Q -> sample f1 draw rows = []) /\
    ((f1 == 1)%Q -> (forall i, (0 <= draw i)%Q /\ (draw i < 1)%Q) ->
     sample f1 draw rows = rows) /\
    ((0 <= f1)%Q -> (f1 <= f2)%Q -> (f2 <= 1)%Q ->
     (List.length (sample f1 draw rows)
      <= List.length (sample f2 draw rows))%nat /\
     forall r, In r (sample f1 draw rows) -> In r (sample f2 draw rows)).
Proof.
  intros row f1 f2 draw rows. unfold sample. split; [|split].
  - intros Hf. apply sample_cell_none. intros i.
    destruct (in_cell 0 f1 (draw i)) eqn:E; [|reflexivity].
    apply in_cell_true in E. destruct E as [H0 H1].
    exfalso. apply (Qlt_irrefl (draw i)).
    eapply Qlt_le_trans; [exact H1|]. now rewrite Hf.
  - intros Hf Hd. apply sample_cell_all. intros i.
    apply in_cell_true. destruct (Hd i) as [H0 H1].
    split; [exact H0|]. now rewrite Hf.
  - intros _ Hf _. apply sample_cell_mono. intros i E.
    apply in_cell_true in E. apply in_cell_true. destruct E as [H0 H1].
    split; [exact H0|]. eapply Qlt_le_trans; eassumption.
Qed.

Lemma sample_fraction_witness :
  sample 0 example_draw labelled_rows = [] /\
  sample 1 example_draw labelled_rows = labelled_rows /\
  (List.length (sample majority_fraction example_draw labelled_rows)
   <= List.length (sample (1 # 2) example_draw labelled_rows))%nat.
Proof.
  destruct (sample_fraction (nat * option Z) 0 1 example_draw labelled_rows)
    as (H0 & _ & _).
  destruct (sample_fraction (nat * option Z) 1 1 example_draw labelled_rows)
    as (_ & H1 & _).
  destruct (sample_fraction (nat * option Z) majority_fraction (1 # 2)
              example_draw labelled_rows) as (_ & _ & Hm).
  split; [apply H0; reflexivity|].
  split.
  - apply H1; [reflexivity|].
    intros i. unfold example_draw.
    destruct (Nat.even i); split; vm_compute; congruence.
  - apply Hm; vm_compute; discriminate.
Defined.
